(** * OpenAI brain: request shaping, history window and client cache

    A shallow embedding of [MyBrainService] (src/brain.ts), the plugin that
    adapts the host's prompts to the OpenAI API, and the properties of its
    request-shaping logic.

    Two revisions of the service are covered.  They share the history window,
    the message composer, the transcription path and the client cache, and
    differ in the text-model table, in the image-generation parameters and in
    the error recorded by the settings check.

    Conventions.
    - A JavaScript string is a [string]; one character stands for one UTF-16
      code unit, so [String.length] is the [.length] of the source.
    - A JavaScript number that the service only compares, adds and subtracts
      (the character budget) is a [Z].
    - An optional or possibly [undefined] field is an [option].
    - What the service gets from Node, from the OpenAI client and from the
      brain SDK is a parameter of the development (see [Runtime]). *)

From Stdlib Require Import String Ascii List ZArith Bool Arith Lia.
From Stdlib Require Import DecimalString FunInd Recdef.
Import ListNotations.
Local Open Scope string_scope.
Local Open Scope list_scope.

(** ** JavaScript values used by the service *)

Module Js.

(** [s.startsWith(p)] *)
Definition startsWith (s p : string) : bool := String.prefix p s.

(** Truthiness of a value that is a string or [undefined]. *)
Definition truthy (v : option string) : bool :=
  match v with
  | Some s => negb (s =? "")
  | None => false
  end.

(** [a || b] on values that are strings or [undefined]. *)
Definition or (a b : option string) : option string :=
  if truthy a then a else b.

(** [xs[xs.length - 1]] *)
Definition last_item {A : Type} (xs : list A) : option A :=
  nth_error xs (length xs - 1).

(** The members every object literal inherits from [Object.prototype]:
    a property read with one of these names finds the inherited member,
    not [undefined]. *)
Definition Object_prototype_keys : list string :=
  [ "constructor"; "__defineGetter__"; "__defineSetter__"; "hasOwnProperty";
    "__lookupGetter__"; "__lookupSetter__"; "isPrototypeOf";
    "propertyIsEnumerable"; "toString"; "valueOf"; "__proto__";
    "toLocaleString" ].

(** The result of reading [table[key]] on an object literal whose own
    properties are strings. *)
Inductive Property : Type :=
| Undefined
| Str (s : string)
| Inherited (member : string).

Fixpoint own (table : list (string * string)) (key : string) : option string :=
  match table with
  | [] => None
  | (k, v) :: rest => if k =? key then Some v else own rest key
  end.

Definition mem (key : string) (keys : list string) : bool :=
  existsb (String.eqb key) keys.

(** [table[key]]; an absent key ([undefined] used as a key) reads the
    property named "undefined". *)
Definition get (table : list (string * string)) (key : option string) : Property :=
  let name := match key with Some k => k | None => "undefined" end in
  match own table name with
  | Some v => Str v
  | None => if mem name Object_prototype_keys then Inherited name else Undefined
  end.

Definition Property_eqb (a b : Property) : bool :=
  match a, b with
  | Undefined, Undefined => true
  | Str s, Str t => s =? t
  | Inherited m, Inherited n => m =? n
  | _, _ => false
  end.

(** A JavaScript number as far as [Number.parseInt] produces one. *)
Inductive Number : Type :=
| NaN
| Int (z : Z).

End Js.

(** ** Data of the host SDK *)

Record FileAttachment : Type := {
  path : string;
  mimeType : string
}.

Record TextBrainPrompt : Type := {
  role : string;
  message : string;
  attachments : option (list FileAttachment)
}.

Inductive ImageDetail : Type := low | high.

(** [ISettings]; [imageGenerationModel] exists in the later revision only. *)
Record ISettings : Type := {
  apiKey : option string;
  textModel : option string;
  audioTranscriberModel : option string;
  audioTranscriberDefaultLanguage : option string;
  imageGenerationSize : string;
  imageGenerationCount : string;
  maxCharactersHistorySize : option Z;
  imageDetail : ImageDetail;
  imageGenerationModel : option string
}.

(** ** The history window: [truncateStringList] *)

(** [list.map((m) => m.message).join('').length] *)
Definition totalCharacters (turns : list TextBrainPrompt) : Z :=
  Z.of_nat (String.length (String.concat "" (map message turns))).

(** The [while] loop: each round removes the first turn ([list.shift()], here
    the head of [turns]) and subtracts its message length.  A turn is an
    object, so the [else break] branch of the source is never taken; on the
    empty list the loop condition [list.length > 1] is false. *)
Fixpoint truncate_loop (turns : list TextBrainPrompt)
    (totalCharacters maxCharacters : Z) : list TextBrainPrompt :=
  match turns with
  | [] => []
  | firstItem :: rest =>
      if (totalCharacters >? maxCharacters)%Z && (1 <? length turns)%nat
      then truncate_loop rest
             (totalCharacters - Z.of_nat (String.length (message firstItem)))
             maxCharacters
      else turns
  end.

(** The source shifts the caller's array in place and returns it; the value
    returned is what is modelled. *)
Definition truncateStringList (turns : list TextBrainPrompt)
    (maxCharacters : Z) : list TextBrainPrompt :=
  if (length turns <=? 2)%nat then turns
  else truncate_loop turns (totalCharacters turns) maxCharacters.

(** The total message length of a turn list, as the sum of the lengths. *)
Definition message_total (turns : list TextBrainPrompt) : Z :=
  fold_right (fun m acc => (Z.of_nat (String.length (message m)) + acc)%Z) 0%Z turns.

(** ** Requests and responses of the OpenAI client *)

Definition Buffer : Type := list Byte.byte.

Inductive ContentPart : Type :=
| text_part (text : string)
| image_url_part (url : string) (detail : ImageDetail).

(** [string | ChatCompletionContentPart[]] *)
Inductive MessageContent : Type :=
| content_string (s : string)
| content_parts (parts : list ContentPart).

Record ChatMessage : Type := {
  chat_role : string;
  content : MessageContent
}.

Record ChatCompletionCreateParams : Type := {
  model : Js.Property;
  messages : list ChatMessage;
  max_tokens : Z
}.

(** A chat completion, as far as the service reads it: the message content
    of each choice ([None] for a [null] content). *)
Record ChatCompletion : Type := {
  choices : list (option string)
}.

Record TranscriptionCreateParams : Type := {
  file : string;
  language : option string;
  transcription_model : option string
}.

Record Transcription : Type := {
  text : string
}.

(** [image_model] is [None] when the request has no [model] field (the
    earlier revision). *)
Record ImageGenerateParams : Type := {
  image_model : option Js.Property;
  prompt : string;
  n : Js.Number;
  size : string;
  user : option string;
  response_format : string
}.

Record Image : Type := {
  url : option string;
  b64_json : option string
}.

Record ImagesResponse : Type := {
  data : list Image
}.

(** ** Prompts and responses of the host SDK *)

Record LocalAudioPrompt : Type := {
  audioFilePath : string;
  prompt_language : option string
}.

Record ImageGenerationBrainPrompt : Type := {
  prompt_message : string;
  expectedResponseType : string
}.

Record IBrainPromptContext : Type := {
  settings : option ISettings;
  senderId : option string
}.

(** [Buffer | string]; the string is a field of the provider's response and
    may be [undefined]. *)
Inductive FileData : Type :=
| file_string (s : option string)
| file_buffer (b : Buffer).

Record ResponseFile : Type := {
  file_data : FileData;
  fileType : string;
  file_mimeType : string
}.

Record BrainPromptResponse (V : Type) : Type := {
  result : string;
  response_attachments : option (list ResponseFile);
  validationResult : V
}.
Arguments result {V} _.
Arguments response_attachments {V} _.
Arguments validationResult {V} _.

(** ** The service object and the outside world *)

(** An OpenAI client: the key it was built with, and a serial number that
    stands for the identity of the object. *)
Record OpenAI : Type := {
  client_apiKey : option string;
  client_serial : nat
}.

(** The two fields of [MyBrainService]. *)
Record MyBrainService : Type := {
  openAI : option OpenAI;
  currentKey : option string
}.

(** What a call does outside the service object, in order. *)
Inductive Event : Type :=
| NewOpenAI (key : option string)
| ReadFileSync (p : string)
| CreateReadStream (p : string)
| Fetch (u : option string)
| ChatCompletionsCreate (client : OpenAI) (params : ChatCompletionCreateParams)
| AudioTranscriptionsCreate (client : OpenAI) (params : TranscriptionCreateParams)
| ImagesGenerate (client : OpenAI) (params : ImageGenerateParams).

(** The requests that go over the network. *)
Definition is_network_call (e : Event) : bool :=
  match e with
  | Fetch _ | ChatCompletionsCreate _ _ | AudioTranscriptionsCreate _ _
  | ImagesGenerate _ _ => true
  | NewOpenAI _ | ReadFileSync _ | CreateReadStream _ => false
  end.

Record World : Type := {
  service : MyBrainService;
  events : list Event
}.

(** A call returns a value or throws; what it did before throwing stays
    done. *)
Inductive Outcome (A : Type) : Type :=
| Returned (a : A)
| Thrown (error : string).
Arguments Returned {A} a.
Arguments Thrown {A} error.

Definition M (A : Type) : Type := World -> Outcome A * World.

Definition ret {A : Type} (a : A) : M A := fun w => (Returned a, w).

Definition throw {A : Type} (error : string) : M A := fun w => (Thrown error, w).

Definition bind {A B : Type} (m : M A) (k : A -> M B) : M B :=
  fun w =>
    match m w with
    | (Returned a, w') => k a w'
    | (Thrown error, w') => (Thrown error, w')
    end.

Notation "x <- m ;; k" := (bind m (fun x => k))
  (at level 61, m at next level, right associativity).
Notation "m ;; k" := (bind m (fun _ => k))
  (at level 61, right associativity).

Definition lift {A : Type} (o : Outcome A) : M A := fun w => (o, w).

Definition emit (e : Event) : M unit :=
  fun w => (Returned tt, {| service := service w; events := events w ++ [e] |}).

(** [xs.map(f)] and [for (const x of xs)] with a callback that has effects:
    left to right, stopping at the first throw. *)
Fixpoint mapM {A B : Type} (f : A -> M B) (xs : list A) : M (list B) :=
  match xs with
  | [] => ret []
  | x :: rest => y <- f x ;; ys <- mapM f rest ;; ret (y :: ys)
  end.

(** Reading a property of [undefined]. *)
Definition TypeError : string := "TypeError".

Definition defined {A : Type} (v : option A) : M A :=
  match v with
  | Some a => ret a
  | None => throw TypeError
  end.

(** What the service uses and does not define: the validation result of the
    brain SDK, Node's file system, [fetch], the string and number built-ins,
    and the answers of the OpenAI API.  Each answers as a function of what it
    is asked; the properties below hold for every such runtime. *)
Record Runtime (V : Type) : Type := {
  new_BrainSettingsValidationResult : V;
  addFieldError : string -> string -> V -> V;
  addError : string -> V -> V;
  success : V -> bool;
  getMessage : V -> string;
  readFileSync : string -> Outcome Buffer;
  toString_base64 : Buffer -> string;
  fetch_buffer : option string -> Outcome Buffer;
  Number_parseInt : string -> Js.Number;
  trim : string -> string;
  chat_completions_create :
    OpenAI -> ChatCompletionCreateParams -> Outcome ChatCompletion;
  audio_transcriptions_create :
    OpenAI -> TranscriptionCreateParams -> Outcome Transcription;
  images_generate : OpenAI -> ImageGenerateParams -> Outcome ImagesResponse
}.
Arguments new_BrainSettingsValidationResult {V} _.
Arguments addFieldError {V} _ _ _ _.
Arguments addError {V} _ _ _.
Arguments success {V} _ _.
Arguments getMessage {V} _ _.
Arguments readFileSync {V} _ _.
Arguments toString_base64 {V} _ _.
Arguments fetch_buffer {V} _ _.
Arguments Number_parseInt {V} _ _.
Arguments trim {V} _ _.
Arguments chat_completions_create {V} _ _ _.
Arguments audio_transcriptions_create {V} _ _ _.
Arguments images_generate {V} _ _ _.

(** The two revisions of the service. *)
Inductive Revision : Type :=
| rev_preview   (* src/brain.ts: vision preview model, no image model setting *)
| rev_4o.       (* the revision with [imageGenerationModel] and the 4o models *)

(** The explanation the later revision records for a bad key. *)
Definition missing_key_content : string :=
"# OpenAI API Key is Missing
    Ops! Looks like you didn't configure your OpenAI API Key yet. This is required to use this brain.

    ## How to get an OpenAI API Key

    [Log in into your Open AI account](https://platform.openai.com/login?launch) or [create one](https://chat.openai.com/auth/login) if you don't have it.
    After that, go to the [API Key section of Open AI dashboard](https://platform.openai.com/api-keys) and copy your API key (or generate one if you still don't have).

    ![Open AI Dashboard](https://www.hubai.app/assets/images/openaidashboard-a5eec4bd5881c386268c5f7e8a02cdbb.png)

    ## How to configure your OpenAI API Key at HubAI

    Go to the Brains page, select this brain and set the OpenAI API Key. After that just click on the **Save Settings** button and you're ready to go!
    ![brain settings](https://www.hubai.app/assets/images/brain-settings-40bc90772d6b2ab68a8ab4a255cb4987.png)

    ## How to use gpt-4 and Dall-e-3 premium models
In order to use all the features that Chat GPT brain has to offer (like gpt-4), we recommend you to buy at least $0.5 cents of credits on Open AI. You can do that [by clicking here](https://platform.openai.com/account/billing/overview). You only have to do this once.
    ".

(** ** The service *)

Section Service.

Context {V : Type}.
Variable rt : Runtime V.
Variable rev : Revision.

(** *** [validateSettings] *)

(** [!settings?.apiKey || settings.apiKey.length < 10] *)
Definition apiKey_rejected (settings : option ISettings) : bool :=
  let key := match settings with Some s => apiKey s | None => None end in
  negb (Js.truthy key)
  || match key with
     | Some k => (String.length k <? 10)%nat
     | None => true
     end.

Definition validateSettings (settings : option ISettings) : V :=
  let validation := new_BrainSettingsValidationResult rt in
  if apiKey_rejected settings then
    match rev with
    | rev_preview => addFieldError rt "apiKey" "API key format is invalid" validation
    | rev_4o => addError rt missing_key_content validation
    end
  else validation.

(** *** [getClient] *)

(** [new OpenAI({ apiKey })], taken to return (as it does for a key that
    is a string), followed by the two assignments. *)
Definition new_client (key : option string) : M OpenAI :=
  fun w =>
    let client :=
      {| client_apiKey := key; client_serial := length (events w) |} in
    (Returned client,
     {| service := {| openAI := Some client; currentKey := key |};
        events := events w ++ [NewOpenAI key] |}).

Definition option_string_eqb (a b : option string) : bool :=
  match a, b with
  | Some s, Some t => s =? t
  | None, None => true
  | _, _ => false
  end.

(** [settings] is [None] when the context carries no settings object;
    reading [settings.apiKey] then throws. *)
Definition getClient (settings : option ISettings) : M OpenAI :=
  s <- defined settings ;;
  fun w =>
    match openAI (service w) with
    | Some client =>
        if negb (option_string_eqb (currentKey (service w)) (apiKey s))
        then new_client (apiKey s) w
        else (Returned client, w)
    | None => new_client (apiKey s) w
    end.

(** *** [transcribeAudio] *)

Definition transcriptionParams (prompt : LocalAudioPrompt) (s : ISettings)
    : TranscriptionCreateParams :=
  {| file := audioFilePath prompt;
     language :=
       Js.or (prompt_language prompt)
         (Js.or (audioTranscriberDefaultLanguage s) (Some "en"));
     transcription_model := audioTranscriberModel s |}.

Definition transcribeAudio (prompt : LocalAudioPrompt)
    (context : IBrainPromptContext) : M (BrainPromptResponse V) :=
  let validationResult := validateSettings (settings context) in
  if negb (success rt validationResult) then
    ret {| result := getMessage rt validationResult;
           response_attachments := None;
           validationResult := validationResult |}
  else
    emit (CreateReadStream (audioFilePath prompt)) ;;
    s <- defined (settings context) ;;
    let params := transcriptionParams prompt s in
    client <- getClient (settings context) ;;
    emit (AudioTranscriptionsCreate client params) ;;
    result <- lift (audio_transcriptions_create rt client params) ;;
    ret {| result := text result;
           response_attachments := None;
           validationResult := validationResult |}.

(** *** [generateImage] *)

Definition imageModels : list (string * string) :=
  [ ("Dall-E 2", "dall-e-2"); ("Dall-E 3", "dall-e-3") ].

Definition imageGenerateParams (prompt : ImageGenerationBrainPrompt)
    (s : ISettings) (senderId : option string) (responseFormat : string)
    : ImageGenerateParams :=
  match rev with
  | rev_preview =>
      {| image_model := None;
         prompt := trim rt (prompt_message prompt);
         n := Number_parseInt rt (imageGenerationCount s);
         size := imageGenerationSize s;
         user := senderId;
         response_format := responseFormat |}
  | rev_4o =>
      let model := Js.get imageModels (imageGenerationModel s) in
      {| image_model := Some model;
         prompt := trim rt (prompt_message prompt);
         n := if Js.Property_eqb model (Js.Str "dall-e-3")
              then Js.Int 1
              else Number_parseInt rt (imageGenerationCount s);
         size := if Js.Property_eqb model (Js.Str "dall-e-3")
                 then "1024x1024"
                 else imageGenerationSize s;
         user := senderId;
         response_format := responseFormat |}
  end.

(** One round of the loop over [urls]. *)
Definition imageAttachment (prompt : ImageGenerationBrainPrompt)
    (url : option string) : M ResponseFile :=
  data <- (if expectedResponseType prompt =? "binary"
           then emit (Fetch url) ;;
                b <- lift (fetch_buffer rt url) ;;
                ret (file_buffer b)
           else ret (file_string url)) ;;
  ret {| file_data := data; fileType := "image"; file_mimeType := "image/png" |}.

Definition generateImage (prompts : list ImageGenerationBrainPrompt)
    (context : IBrainPromptContext) : M (BrainPromptResponse V) :=
  let prompt := Js.last_item prompts in
  let validationResult := validateSettings (settings context) in
  if negb (success rt validationResult) then
    ret {| result := getMessage rt validationResult;
           response_attachments := None;
           validationResult := validationResult |}
  else
    prompt <- defined prompt ;;
    let responseFormat :=
      if expectedResponseType prompt =? "base64" then "b64_json" else "url" in
    s <- defined (settings context) ;;
    let params :=
      imageGenerateParams prompt s (senderId context) responseFormat in
    client <- getClient (settings context) ;;
    emit (ImagesGenerate client params) ;;
    result <- lift (images_generate rt client params) ;;
    let urls :=
      map (fun d => if responseFormat =? "url" then url d else b64_json d)
          (data result) in
    attachments <- mapM (imageAttachment prompt) urls ;;
    ret {| result := "";
           response_attachments := Some attachments;
           validationResult := validationResult |}.

(** *** [sendTextPrompt] *)

(** [attachments?.filter((a) => a.mimeType.startsWith('image/')).length];
    [None] is [undefined]. *)
Definition image_count (m : TextBrainPrompt) : option nat :=
  match attachments m with
  | Some atts =>
      Some (length (filter (fun a => Js.startsWith (mimeType a) "image/") atts))
  | None => None
  end.

(** Truthiness of a number or [undefined]. *)
Definition truthy_count (c : option nat) : bool :=
  match c with
  | Some k => (0 <? k)%nat
  | None => false
  end.

Definition hasImageAttached (messagesTruncated : list TextBrainPrompt) : nat :=
  length (filter (fun m => truthy_count (image_count m)) messagesTruncated).

Definition convertImageAttachmentToBase64 (attachment : FileAttachment)
    : M string :=
  emit (ReadFileSync (path attachment)) ;;
  bytes <- lift (readFileSync rt (path attachment)) ;;
  let imageBase64 := toString_base64 rt bytes in
  ret ("data:" ++ mimeType attachment ++ ";base64," ++ imageBase64)%string.

(** One image part; [lastPrompt] and the settings are read only where the
    source reads them. *)
Definition imagePart (ctx_settings : option ISettings)
    (lastPrompt : option TextBrainPrompt) (message0 : TextBrainPrompt)
    (m : FileAttachment) : M ContentPart :=
  url <- convertImageAttachmentToBase64 m ;;
  last <- defined lastPrompt ;;
  detail <- (if message message0 =? message last
             then s <- defined ctx_settings ;; ret (imageDetail s)
             else ret low) ;;
  ret (image_url_part url detail).

Definition getMessageContent (ctx_settings : option ISettings)
    (lastPrompt : option TextBrainPrompt) (message0 : TextBrainPrompt)
    : M MessageContent :=
  if negb (truthy_count (image_count message0)) || (role message0 =? "brain")
  then ret (content_string (message message0))
  else
    atts <- defined (attachments message0) ;;
    parts <- mapM (imagePart ctx_settings lastPrompt message0) atts ;;
    ret (content_parts (text_part (message message0) :: parts)).

Definition textModels : list (string * string) :=
  match rev with
  | rev_preview =>
      [ ("GPT 4", "gpt-4-1106-preview");
        ("GPT 3.5", "gpt-3.5-turbo");
        ("vision", "gpt-4-vision-preview") ]
  | rev_4o =>
      [ ("GPT 4o", "gpt-4o");
        ("GPT 4o-mini", "gpt-4o-mini");
        ("vision", "gpt-4o-mini") ]
  end.

(** The [model] field of the chat request. *)
Definition textModel_of (ctx_settings : option ISettings)
    (hasImage : nat) : M Js.Property :=
  if (0 <? hasImage)%nat
  then ret (Js.get textModels (Some "vision"))
  else s <- defined ctx_settings ;; ret (Js.get textModels (textModel s)).

(** [context.settings?.maxCharactersHistorySize ?? 3000] *)
Definition historyBudget (ctx_settings : option ISettings) : Z :=
  match ctx_settings with
  | Some s =>
      match maxCharactersHistorySize s with
      | Some k => k
      | None => 3000%Z
      end
  | None => 3000%Z
  end.

Definition chatMessage (ctx_settings : option ISettings)
    (lastPrompt : option TextBrainPrompt) (m : TextBrainPrompt)
    : M ChatMessage :=
  c <- getMessageContent ctx_settings lastPrompt m ;;
  ret {| chat_role := if role m =? "brain" then "assistant" else role m;
         content := c |}.

Definition sendTextPrompt (prompts : list TextBrainPrompt)
    (context : IBrainPromptContext) : M (BrainPromptResponse V) :=
  let validationResult := validateSettings (settings context) in
  if negb (success rt validationResult) then
    ret {| result := getMessage rt validationResult;
           response_attachments := None;
           validationResult := validationResult |}
  else
    let maxCharactersHistorySize := historyBudget (settings context) in
    let messagesTruncated :=
      truncateStringList prompts maxCharactersHistorySize in
    let lastPrompt := Js.last_item messagesTruncated in
    chosen <- textModel_of (settings context)
                (hasImageAttached messagesTruncated) ;;
    msgs <- mapM (chatMessage (settings context) lastPrompt)
              messagesTruncated ;;
    let params :=
      {| model := chosen;
         messages := msgs;
         max_tokens := maxCharactersHistorySize |} in
    client <- getClient (settings context) ;;
    emit (ChatCompletionsCreate client params) ;;
    response <- lift (chat_completions_create rt client params) ;;
    first <- defined (nth_error (choices response) 0) ;;
    c <- defined first ;;
    ret {| result := trim rt c;
           response_attachments := None;
           validationResult := validationResult |}.

End Service.

(** ** Notions used to state the properties *)

(** The credential of a settings object: absent when the settings or the key
    are. *)
Definition credential (settings : option ISettings) : option string :=
  match settings with
  | Some s => apiKey s
  | None => None
  end.

(** The attachments of a turn whose mimeType starts with "image/". *)
Definition image_attachments (m : TextBrainPrompt) : list FileAttachment :=
  match attachments m with
  | Some atts => filter (fun a => Js.startsWith (mimeType a) "image/") atts
  | None => []
  end.

(** The inline form of an attachment whose file holds [bytes]. *)
Definition data_url {V : Type} (rt : Runtime V) (a : FileAttachment)
    (bytes : Buffer) : string :=
  ("data:" ++ mimeType a ++ ";base64," ++ toString_base64 rt bytes)%string.

Definition is_image_part (p : ContentPart) : bool :=
  match p with
  | image_url_part _ _ => true
  | text_part _ => false
  end.

(** The vision-capable model of each revision. *)
Definition vision_model (rev : Revision) : string :=
  match rev with
  | rev_preview => "gpt-4-vision-preview"
  | rev_4o => "gpt-4o-mini"
  end.

(** The requests of each kind in a log, in order. *)
Definition chat_requests (log : list Event) : list ChatCompletionCreateParams :=
  flat_map (fun e => match e with
                     | ChatCompletionsCreate _ params => [params]
                     | _ => []
                     end) log.

Definition transcription_requests (log : list Event)
    : list TranscriptionCreateParams :=
  flat_map (fun e => match e with
                     | AudioTranscriptionsCreate _ params => [params]
                     | _ => []
                     end) log.

Definition image_requests (log : list Event) : list ImageGenerateParams :=
  flat_map (fun e => match e with
                     | ImagesGenerate _ params => [params]
                     | _ => []
                     end) log.

(** A computation that sends no chat request, whatever its outcome. *)
Definition sends_no_chat {A : Type} (m : M A) : Prop :=
  forall w, chat_requests (events (snd (m w))) = chat_requests (events w).

(** The attachment the service returns for every generated image. *)
Definition png (d : FileData) : ResponseFile :=
  {| file_data := d; fileType := "image"; file_mimeType := "image/png" |}.

(** What the SDK's validation result is relied on for: recording an error
    makes the result unsuccessful, and its message is not empty when the
    recorded text is not. *)
Record ValidationLaws {V : Type} (rt : Runtime V) : Prop := {
  success_addFieldError :
    forall f e v, success rt (addFieldError rt f e v) = false;
  success_addError :
    forall e v, success rt (addError rt e v) = false;
  getMessage_addFieldError :
    forall f e v, e <> "" -> getMessage rt (addFieldError rt f e v) <> "";
  getMessage_addError :
    forall e v, e <> "" -> getMessage rt (addError rt e v) <> ""
}.

(** ** A concrete runtime and concrete inputs

    A small deterministic runtime on which the service runs by computation:
    the validation result is the list of recorded errors, there is one
    readable file and one fetchable URL, and the provider gives the same
    answer to every request of a kind. *)

Module Sample.

Definition base64_alphabet : string :=
  "ABCDEFGHIJKLMNOPQRSTUVWXYZabcdefghijklmnopqrstuvwxyz0123456789+/".

Definition sextet (i : N) : string :=
  match String.get (N.to_nat i) base64_alphabet with
  | Some c => String c ""
  | None => "="
  end.

(** Base64 of a list of byte values, with padding. *)
Fixpoint base64 (bs : list N) : string :=
  match bs with
  | [] => ""
  | [a] => sextet (a / 4) ++ sextet ((a mod 4) * 16) ++ "=="
  | [a; b] =>
      sextet (a / 4) ++ sextet ((a mod 4) * 16 + b / 16)
      ++ sextet ((b mod 16) * 4) ++ "="
  | a :: b :: c :: rest =>
      sextet (a / 4) ++ sextet ((a mod 4) * 16 + b / 16)
      ++ sextet ((b mod 16) * 4 + c / 64) ++ sextet (c mod 64)
      ++ base64 rest
  end%N%string.

Definition is_space (c : ascii) : bool :=
  let k := nat_of_ascii c in
  ((9 <=? k) && (k <=? 13) || (k =? 32) || (k =? 160))%nat.

Fixpoint trimStart (s : string) : string :=
  match s with
  | String c rest => if is_space c then trimStart rest else s
  | EmptyString => EmptyString
  end.

Fixpoint trimEnd (s : string) : string :=
  match s with
  | String c rest =>
      let rest' := trimEnd rest in
      if is_space c && (rest' =? "") then "" else String c rest'
  | EmptyString => EmptyString
  end.

(** The leading decimal digits of a string, as a number. *)
Fixpoint digits (s : string) (acc : option Z) : option Z :=
  match s with
  | String c rest =>
      let k := nat_of_ascii c in
      if ((48 <=? k) && (k <=? 57))%nat
      then digits rest
             (Some (10 * match acc with Some a => a | None => 0 end
                    + Z.of_nat (k - 48))%Z)
      else acc
  | EmptyString => acc
  end.

Definition parseInt (s : string) : Js.Number :=
  match digits s None with
  | Some z => Js.Int z
  | None => Js.NaN
  end.

Definition png_bytes : Buffer := [Byte.x89; Byte.x50; Byte.x4e; Byte.x47].

Definition other_bytes : Buffer := [Byte.x89; Byte.x50; Byte.x4e; Byte.x47; Byte.x0d].

Definition generated_url : string := "https://images.example/generated/1.png".

Definition runtime : Runtime (list string) := {|
  new_BrainSettingsValidationResult := [];
  addFieldError := fun f e v => v ++ [e];
  addError := fun e v => v ++ [e];
  success := fun v => match v with [] => true | _ :: _ => false end;
  getMessage := fun v => String.concat " " v;
  readFileSync := fun p =>
    if p =? "/tmp/cat.png" then Returned png_bytes
    else if p =? "/tmp/dog.png" then Returned other_bytes
    else Thrown "ENOENT";
  toString_base64 := fun b => base64 (map Byte.to_N b);
  fetch_buffer := fun u =>
    match u with
    | Some a => if a =? generated_url then Returned png_bytes
                else Thrown "FetchError"
    | None => Thrown "TypeError"
    end;
  Number_parseInt := parseInt;
  trim := fun s => trimEnd (trimStart s);
  chat_completions_create := fun _ _ =>
    Returned {| choices := [Some " Hello! "] |};
  audio_transcriptions_create := fun _ _ =>
    Returned {| text := "hello world" |};
  images_generate := fun _ params =>
    Returned {| data :=
      [ if response_format params =? "url"
        then {| url := Some generated_url; b64_json := None |}
        else {| url := None; b64_json := Some "iVBORw==" |} ] |}
|}.

(** The same runtime with the network down for [fetch]. *)
Definition offline : Runtime (list string) := {|
  new_BrainSettingsValidationResult := new_BrainSettingsValidationResult runtime;
  addFieldError := addFieldError runtime;
  addError := addError runtime;
  success := success runtime;
  getMessage := getMessage runtime;
  readFileSync := readFileSync runtime;
  toString_base64 := toString_base64 runtime;
  fetch_buffer := fun _ => Thrown "ENETUNREACH";
  Number_parseInt := Number_parseInt runtime;
  trim := trim runtime;
  chat_completions_create := chat_completions_create runtime;
  audio_transcriptions_create := audio_transcriptions_create runtime;
  images_generate := images_generate runtime
|}.

Definition world0 : World :=
  {| service := {| openAI := None; currentKey := None |}; events := [] |}.

Definition settings_with (key : option string) (detail : ImageDetail)
    : ISettings :=
  {| apiKey := key;
     textModel := Some "GPT 4";
     audioTranscriberModel := Some "whisper-1";
     audioTranscriberDefaultLanguage := Some "pt";
     imageGenerationSize := "512x512";
     imageGenerationCount := "2";
     maxCharactersHistorySize := Some 3000%Z;
     imageDetail := detail;
     imageGenerationModel := Some "Dall-E 3" |}.

Definition good_key : string := "sk-0123456789abcdef".

(** Settings with a valid key and the text-model label [label]. *)
Definition settings_labelled (label : option string) : ISettings :=
  {| apiKey := Some good_key;
     textModel := label;
     audioTranscriberModel := Some "whisper-1";
     audioTranscriberDefaultLanguage := Some "pt";
     imageGenerationSize := "512x512";
     imageGenerationCount := "2";
     maxCharactersHistorySize := Some 3000%Z;
     imageDetail := high;
     imageGenerationModel := Some "Dall-E 3" |}.

Definition context_labelled (label : option string) : IBrainPromptContext :=
  {| settings := Some (settings_labelled label); senderId := Some "user-1" |}.

Definition context_with (key : option string) (detail : ImageDetail)
    : IBrainPromptContext :=
  {| settings := Some (settings_with key detail); senderId := Some "user-1" |}.

Definition turn (r msg : string) (atts : option (list FileAttachment))
    : TextBrainPrompt :=
  {| role := r; message := msg; attachments := atts |}.

Definition cat : FileAttachment :=
  {| path := "/tmp/cat.png"; mimeType := "image/png" |}.

Definition dog : FileAttachment :=
  {| path := "/tmp/dog.png"; mimeType := "image/png" |}.

(** An image whose file does not exist. *)
Definition missing : FileAttachment :=
  {| path := "/tmp/missing.png"; mimeType := "image/png" |}.

(** A message of [k] characters. *)
Definition filler (k : nat) : string :=
  string_of_list_ascii (repeat "a"%char k).

(** Five turns of 1000 characters each. *)
Definition five_turns : list TextBrainPrompt :=
  [ turn "user" (filler 1000) None;
    turn "brain" (filler 1000) None;
    turn "user" (filler 1000) None;
    turn "brain" (filler 1000) None;
    turn "user" (filler 1000) None ].

(** Five turns of 1000 characters; only the oldest carries an image, and a
    budget of 3000 drops it. *)
Definition old_image_history : list TextBrainPrompt :=
  [ turn "user" (filler 1000) (Some [cat]);
    turn "brain" (filler 1000) None;
    turn "user" (filler 1000) None;
    turn "brain" (filler 1000) None;
    turn "user" (filler 1000) None ].

(** Two user turns with the same text, each with its own image. *)
Definition repeated_question : list TextBrainPrompt :=
  [ turn "user" "what is this?" (Some [cat]);
    turn "user" "what is this?" (Some [dog]) ].

Definition audio : LocalAudioPrompt :=
  {| audioFilePath := "/tmp/voice.ogg"; prompt_language := None |}.

Definition image_prompt (expected : string) : ImageGenerationBrainPrompt :=
  {| prompt_message := " a red bicycle "; expectedResponseType := expected |}.

End Sample.

(** ** Notions used to state the further properties *)

(** The role a turn is sent with. *)
Definition provider_role (r : string) : string :=
  if r =? "brain" then "assistant" else r.

(** The cached client, if any, was built with the cached key. *)
Definition coherent (svc : MyBrainService) : Prop :=
  forall c, openAI svc = Some c -> client_apiKey c = currentKey svc.

(** The clients that sent the requests of a log, in order. *)
Definition request_clients (log : list Event) : list OpenAI :=
  flat_map (fun e => match e with
                     | ChatCompletionsCreate c _
                     | AudioTranscriptionsCreate c _
                     | ImagesGenerate c _ => [c]
                     | _ => []
                     end) log.

Definition network_calls (log : list Event) : list Event :=
  filter is_network_call log.

(** [w'] is [w] with the same service object and more events, none of them
    a network call. *)
Definition local_step (w w' : World) : Prop :=
  service w' = service w /\
  exists l, events w' = events w ++ l /\ network_calls l = [].

(** A triple for calls: from a world in [P], a return leaves a value and a
    world in [Q], a throw an error and a world in [E]. *)
Definition hoare {A : Type} (P : World -> Prop) (m : M A)
    (Q : A -> World -> Prop) (E : string -> World -> Prop) : Prop :=
  forall w, P w ->
    match m w with
    | (Returned a, w') => Q a w'
    | (Thrown e, w') => E e w'
    end.

(** The invariant of a call started in [w0] for a caller whose key is [key]:
    the cache is coherent, and every request logged since [w0] was sent by a
    client that holds [key]. *)
Definition own_key (w0 : World) (key : option string) (w : World) : Prop :=
  coherent (service w) /\
  exists l, events w = events w0 ++ l /\
            Forall (fun c => client_apiKey c = key) (request_clients l).

(** An invariant that adding an event of the kind [ok] to the log keeps. *)
Definition stable (I : World -> Prop) (ok : Event -> Prop) : Prop :=
  forall w e, ok e -> I w ->
    I {| service := service w; events := events w ++ [e] |}.

(** A call that keeps an invariant, whether it returns or throws. *)
Definition keeps {A : Type} (I : World -> Prop) (m : M A) : Prop :=
  hoare I m (fun _ => I) (fun _ => I).

Definition is_file_read (e : Event) : Prop := exists p, e = ReadFileSync p.

(** A call whose settings pass the check: the settings exist, their key is
    a string of 10 characters or more, and the SDK's fresh validation result
    is successful. *)
Definition accepted {V : Type} (rt : Runtime V) (context : IBrainPromptContext)
    (s : ISettings) : Prop :=
  settings context = Some s /\
  (exists k, apiKey s = Some k /\ (10 <= String.length k)%nat) /\
  success rt (new_BrainSettingsValidationResult rt) = true.

(** The message sent for a turn whose content is its plain text. *)
Definition plain_message (m : TextBrainPrompt) : ChatMessage :=
  {| chat_role := provider_role (role m);
     content := content_string (message m) |}.

(** The world after one more event. *)
Definition logged (w : World) (e : Event) : World :=
  {| service := service w; events := events w ++ [e] |}.

(** [p] is the path of an attachment of a turn of [turns] that is sent with
    its images. *)
Definition inlined_path (turns : list TextBrainPrompt) (p : string) : Prop :=
  exists m atts a,
    In m turns /\ attachments m = Some atts /\ In a atts /\ path a = p /\
    image_attachments m <> [] /\ role m <> "brain".

(** Since [w0] the log has only grown, and every file read since then is of
    an [inlined_path] of [turns]. *)
Definition reads_within (turns : list TextBrainPrompt) (w0 w : World) : Prop :=
  exists l, events w = events w0 ++ l /\
            forall p, In (ReadFileSync p) l -> inlined_path turns p.

(** Every file attached to a turn of [turns] can be read. *)
Definition readable_attachments {V : Type} (rt : Runtime V)
    (turns : list TextBrainPrompt) : Prop :=
  forall m atts a,
    In m turns -> attachments m = Some atts -> In a atts ->
    exists bytes, readFileSync rt (path a) = Returned bytes.

(** ** The development server's stream *)

Module DevServer.

(** What a handler does to its response. *)
Inductive ResponseOp : Type :=
| setHeader (name value : string)
| write (chunk : string)
| end_response.

(** [" ;i=" + counter], for a counter that is an integer. *)
Definition chunk (counter : Z) : string :=
  " ;i=" ++ NilZero.string_of_int (Z.to_int counter).

(** The rounds before the counter passes 10. *)
Definition rounds_left (counter : Z) : nat := Z.to_nat (11 - counter).

(** [sendAndSleep]: what it does to the response, one round per timer tick,
    in order; the delay between rounds is left out.  Each round either ends
    the response or writes a chunk and schedules the next round with the
    counter incremented. *)
Function sendAndSleep (counter : Z) {measure rounds_left counter}
    : list ResponseOp :=
  if (counter >? 10)%Z then [end_response]
  else write (chunk counter) :: sendAndSleep (counter + 1).
Proof.
  intros counter H. unfold rounds_left.
  rewrite Z.gtb_ltb in H. apply Z.ltb_ge in H. lia.
Defined.

(** The handler of [GET /stream]. *)
Definition stream : list ResponseOp :=
  [ setHeader "Content-Type" "text/html; charset=utf-8";
    setHeader "Transfer-Encoding" "chunked";
    write "Thinking..." ] ++ sendAndSleep 1.

(** The body a client receives: the chunks written, joined. *)
Definition body (ops : list ResponseOp) : string :=
  String.concat ""
    (flat_map (fun op => match op with write c => [c] | _ => [] end) ops).

End DevServer.

(* ================================================================== *)
(** * Properties *)

(** ** The history window *)

Lemma length_append (s t : string) :
  String.length (s ++ t)%string = (String.length s + String.length t)%nat.
Proof.
  induction s as [|c s IH]; simpl; [reflexivity | now rewrite IH].
Qed.

Lemma length_concat_empty (ss : list string) :
  String.length (String.concat "" ss)
  = fold_right (fun s acc => (String.length s + acc)%nat) 0%nat ss.
Proof.
  induction ss as [|s ss IH]; [reflexivity|].
  destruct ss as [|s' ss].
  - simpl. lia.
  - change (String.concat "" (s :: s' :: ss))
      with (s ++ "" ++ String.concat "" (s' :: ss))%string.
    rewrite length_append. change ("" ++ ?x)%string with x.
    rewrite IH. reflexivity.
Qed.

(** The joined length computed by the source is the sum of the lengths. *)
Lemma totalCharacters_sum (turns : list TextBrainPrompt) :
  totalCharacters turns = message_total turns.
Proof.
  unfold totalCharacters. rewrite length_concat_empty.
  induction turns as [|m turns IH]; [reflexivity|].
  simpl. rewrite Nat2Z.inj_add, IH. reflexivity.
Qed.

(** The loop, started with the true total, stops on a suffix that fits the
    budget or has one turn left. *)
Lemma truncate_loop_suffix (turns : list TextBrainPrompt) (maxCharacters : Z) :
  turns <> [] ->
  exists dropped,
    turns = dropped ++ truncate_loop turns (message_total turns) maxCharacters /\
    ((message_total (truncate_loop turns (message_total turns) maxCharacters)
        <= maxCharacters)%Z \/
     length (truncate_loop turns (message_total turns) maxCharacters) = 1%nat).
Proof.
  induction turns as [|m turns IH]; intros Hne; [congruence|].
  cbn [truncate_loop].
  destruct (message_total (m :: turns) >? maxCharacters)%Z eqn:Hgt.
  - destruct (1 <? length (m :: turns))%nat eqn:Hlen; cbn [andb].
    + replace (message_total (m :: turns) - Z.of_nat (String.length (message m)))%Z
        with (message_total turns) by (simpl; lia).
      apply Nat.ltb_lt in Hlen.
      destruct IH as [dropped [Heq Hfit]].
      { destruct turns; [simpl in Hlen; lia | discriminate]. }
      exists (m :: dropped). split; [simpl; f_equal; exact Heq | exact Hfit].
    + exists []. split; [reflexivity|]. right.
      apply Nat.ltb_ge in Hlen. simpl in *. lia.
  - cbn [andb]. exists []. split; [reflexivity|]. left.
    rewrite Z.gtb_ltb in Hgt. apply Z.ltb_ge in Hgt. exact Hgt.
Qed.

Lemma truncate_loop_fits (turns : list TextBrainPrompt) (total maxCharacters : Z) :
  (total <= maxCharacters)%Z -> truncate_loop turns total maxCharacters = turns.
Proof.
  intros H. destruct turns as [|m turns]; [reflexivity|].
  cbn [truncate_loop].
  replace (total >? maxCharacters)%Z with false; [reflexivity|].
  symmetry. rewrite Z.gtb_ltb. apply Z.ltb_ge. exact H.
Qed.

(** Dropping while the running total exceeds the budget: with [k] turns of
    [n] characters ahead of a suffix that fits, exactly those [k] go. *)
Lemma truncate_loop_drop (dropped kept : list TextBrainPrompt) (maxCharacters : Z) :
  kept <> [] ->
  (message_total kept <= maxCharacters)%Z ->
  (forall rest, (exists pre, dropped = pre ++ rest) -> rest <> [] ->
     (maxCharacters < message_total (rest ++ kept))%Z) ->
  truncate_loop (dropped ++ kept) (message_total (dropped ++ kept)) maxCharacters
  = kept.
Proof.
  intros Hne Hfit.
  induction dropped as [|m dropped IH]; intros Hover.
  - simpl. apply truncate_loop_fits. exact Hfit.
  - cbn [app truncate_loop].
    assert (Hgt : (message_total (m :: dropped ++ kept) >? maxCharacters)%Z = true).
    { rewrite Z.gtb_ltb. apply Z.ltb_lt.
      apply (Hover (m :: dropped)); [exists []; reflexivity | discriminate]. }
    rewrite Hgt.
    assert (Hlen : (1 <? length (m :: dropped ++ kept))%nat = true).
    { apply Nat.ltb_lt. simpl. rewrite length_app.
      destruct kept; [congruence | simpl; lia]. }
    rewrite Hlen. cbn [andb].
    replace (message_total (m :: dropped ++ kept)
             - Z.of_nat (String.length (message m)))%Z
      with (message_total (dropped ++ kept)) by (simpl; lia).
    apply IH. intros rest [pre Hpre] Hrest.
    apply Hover; [exists (m :: pre); simpl; now rewrite Hpre | exact Hrest].
Qed.

(** C6: a turn list with 2 or fewer elements is returned unchanged, whatever
    the budget (also a budget below every message length). *)
Theorem truncateStringList_short_unchanged
    (turns : list TextBrainPrompt) (maxCharacters : Z) :
  (length turns <= 2)%nat -> truncateStringList turns maxCharacters = turns.
Proof.
  intros H. unfold truncateStringList.
  apply Nat.leb_le in H. rewrite H. reflexivity.
Qed.

(** Two turns of 1000 characters under a budget of 10 stay as they are. *)
Lemma truncateStringList_short_unchanged_witness :
  truncateStringList (firstn 2 Sample.five_turns) 10
  = firstn 2 Sample.five_turns.
Proof.
  apply (truncateStringList_short_unchanged (firstn 2 Sample.five_turns) 10).
  simpl. lia.
Defined.

(** C1: on a turn list with more than 2 elements, the window returns the
    whole list when the total message length is within the budget; otherwise
    it returns a suffix of the input (the turns left after dropping a prefix,
    order kept) whose total is within the budget or that has exactly one
    turn.  Five turns of 1000 characters with budget 3000 give the last
    three. *)
Theorem truncateStringList_window
    (turns : list TextBrainPrompt) (maxCharacters : Z) :
  (2 < length turns)%nat ->
  ((message_total turns <= maxCharacters)%Z ->
     truncateStringList turns maxCharacters = turns) /\
  ((maxCharacters < message_total turns)%Z ->
     exists dropped,
       turns = dropped ++ truncateStringList turns maxCharacters /\
       ((message_total (truncateStringList turns maxCharacters) <= maxCharacters)%Z \/
        length (truncateStringList turns maxCharacters) = 1%nat)) /\
  (length turns = 5%nat ->
   Forall (fun m => String.length (message m) = 1000%nat) turns ->
   maxCharacters = 3000%Z ->
   truncateStringList turns maxCharacters = skipn 2 turns).
Proof.
  intros Hlen. unfold truncateStringList.
  assert (Hleb : (length turns <=? 2)%nat = false) by (apply Nat.leb_gt; lia).
  rewrite Hleb, totalCharacters_sum. repeat split.
  - intros Hfit. apply truncate_loop_fits. exact Hfit.
  - intros _. apply truncate_loop_suffix.
    destruct turns; [simpl in Hlen; lia | discriminate].
  - intros H5 Hall ->.
    destruct turns as [|a [|b [|c [|d [|e [|f turns]]]]]]; try discriminate H5.
    repeat match goal with
           | H : Forall _ (_ :: _) |- _ => inversion H; subst; clear H
           end.
    change [a; b; c; d; e] with ([a; b] ++ [c; d; e]).
    apply truncate_loop_drop; [discriminate | simpl; lia |].
    intros rest [pre Hpre] Hrest.
    destruct pre as [|x [|y [|z pre]]]; simpl in Hpre; try discriminate Hpre.
    + subst rest. simpl. lia.
    + injection Hpre as _ Hpre. subst rest. simpl. lia.
    + injection Hpre as _ _ Hpre. subst rest. congruence.
Qed.

(** Five turns of 1000 characters: all of them under a budget of 5000, the
    last three under a budget of 3000. *)
Lemma truncateStringList_window_witness :
  truncateStringList Sample.five_turns 5000 = Sample.five_turns /\
  truncateStringList Sample.five_turns 3000 = skipn 2 Sample.five_turns.
Proof.
  assert (Hlen : (2 < length Sample.five_turns)%nat) by (simpl; lia).
  split.
  - apply (truncateStringList_window Sample.five_turns 5000 Hlen).
    vm_compute. discriminate.
  - apply (truncateStringList_window Sample.five_turns 3000 Hlen).
    + reflexivity.
    + repeat constructor.
    + reflexivity.
Defined.

(** ** Running a call *)

Lemma bind_returned {A B : Type} (m : M A) (k : A -> M B) (w w' : World) (a : A) :
  m w = (Returned a, w') -> bind m k w = k a w'.
Proof. intros H. unfold bind. rewrite H. reflexivity. Qed.

Lemma bind_thrown {A B : Type} (m : M A) (k : A -> M B) (w w' : World) (e : string) :
  m w = (Thrown e, w') -> bind m k w = (Thrown e, w').
Proof. intros H. unfold bind. rewrite H. reflexivity. Qed.

Lemma string_eqb_false (s t : string) : s <> t -> (s =? t) = false.
Proof. intros H. apply String.eqb_neq. exact H. Qed.

Lemma option_string_eqb_spec (a b : option string) :
  option_string_eqb a b = true <-> a = b.
Proof.
  destruct a as [s|], b as [t|]; simpl; split; intros H;
    try discriminate; try reflexivity.
  - apply String.eqb_eq in H. now subst.
  - injection H as ->. apply String.eqb_refl.
Qed.

Lemma chat_requests_app (a b : list Event) :
  chat_requests (a ++ b) = chat_requests a ++ chat_requests b.
Proof. apply flat_map_app. Qed.

Lemma transcription_requests_app (a b : list Event) :
  transcription_requests (a ++ b)
  = transcription_requests a ++ transcription_requests b.
Proof. apply flat_map_app. Qed.

Lemma image_requests_app (a b : list Event) :
  image_requests (a ++ b) = image_requests a ++ image_requests b.
Proof. apply flat_map_app. Qed.

(** ** The client cache *)

(** [getClient] on settings that exist always returns a client, and what it
    adds to the log is at most the construction of one client. *)
Lemma getClient_returns (s : ISettings) (w : World) :
  exists client w',
    getClient (Some s) w = (Returned client, w') /\
    openAI (service w') = Some client /\
    (events w' = events w \/ events w' = events w ++ [NewOpenAI (apiKey s)]).
Proof.
  unfold getClient, defined. cbn [bind ret].
  destruct (openAI (service w)) as [cached|] eqn:Hc.
  - destruct (option_string_eqb (currentKey (service w)) (apiKey s)); cbn [negb].
    + exists cached, w. auto.
    + eexists _, _. split; [reflexivity|]. simpl. auto.
  - eexists _, _. split; [reflexivity|]. simpl. auto.
Qed.

(** C9: [getClient] builds a new client exactly when there is none yet or
    the key of the settings differs, as a value, from the key used last;
    otherwise it returns the cached client and changes nothing.  After the
    call the cached key is the key of the settings. *)
Theorem getClient_cache (s : ISettings) (key : string) (w : World) :
  apiKey s = Some key ->
  currentKey (service (snd (getClient (Some s) w))) = Some key /\
  (openAI (service w) = None \/ currentKey (service w) <> Some key ->
     exists client,
       getClient (Some s) w
       = (Returned client,
          {| service := {| openAI := Some client; currentKey := Some key |};
             events := events w ++ [NewOpenAI (Some key)] |}) /\
       client_apiKey client = Some key /\
       client_serial client = length (events w)) /\
  (forall cached,
     openAI (service w) = Some cached -> currentKey (service w) = Some key ->
     getClient (Some s) w = (Returned cached, w)).
Proof.
  intros Hkey. unfold getClient, defined. cbn [bind ret].
  rewrite Hkey.
  destruct (openAI (service w)) as [cached|] eqn:Hc.
  - destruct (option_string_eqb (currentKey (service w)) (Some key)) eqn:He;
      cbn [negb].
    + apply option_string_eqb_spec in He. repeat split.
      * exact He.
      * intros [H|H]; [discriminate | contradiction].
      * intros cached' Hc' _. now injection Hc' as ->.
    + assert (Hne : currentKey (service w) <> Some key).
      { intros H. apply option_string_eqb_spec in H. congruence. }
      repeat split.
      * intros _. eexists. repeat split.
      * intros cached' _ H. contradiction.
  - repeat split.
    + intros _. eexists. repeat split.
    + intros cached H. discriminate.
Qed.

(** A cold start builds a client for the key; a second call with the same
    key returns that client and builds nothing. *)
Lemma getClient_cache_witness :
  let s := Sample.settings_with (Some Sample.good_key) low in
  let w1 := snd (getClient (Some s) Sample.world0) in
  currentKey (service w1) = Some Sample.good_key /\
  events w1 = [NewOpenAI (Some Sample.good_key)] /\
  snd (getClient (Some s) w1) = w1.
Proof.
  intros s w1.
  destruct (getClient_cache s Sample.good_key Sample.world0 eq_refl)
    as [Hcur [Hnew _]].
  destruct (Hnew (or_introl eq_refl)) as [client [Hrun _]].
  split; [exact Hcur|]. split.
  - unfold w1. rewrite Hrun. reflexivity.
  - destruct (getClient_cache s Sample.good_key w1 eq_refl) as [_ [_ Hhit]].
    rewrite (Hhit {| client_apiKey := Some Sample.good_key; client_serial := 0 |});
      reflexivity.
Defined.

(** ** The settings check *)

Lemma apiKey_rejected_short (settings : option ISettings) :
  (forall k, credential settings = Some k -> (String.length k < 10)%nat) ->
  apiKey_rejected settings = true.
Proof.
  intros H. unfold apiKey_rejected. fold (credential settings).
  destruct (credential settings) as [k|]; [|reflexivity].
  apply orb_true_iff. right. apply Nat.ltb_lt. apply H. reflexivity.
Qed.

Lemma apiKey_rejected_long (settings : option ISettings) (k : string) :
  credential settings = Some k -> (10 <= String.length k)%nat ->
  apiKey_rejected settings = false.
Proof.
  intros Hk Hlen. unfold apiKey_rejected. fold (credential settings).
  rewrite Hk. apply orb_false_iff. split.
  - destruct k; [simpl in Hlen; lia | reflexivity].
  - apply Nat.ltb_ge. exact Hlen.
Qed.

(** A key of 10 characters or more leaves the validation result as the SDK
    creates it. *)
Lemma validateSettings_accepted {V : Type} (rt : Runtime V) (rev : Revision)
    (settings : option ISettings) (k : string) :
  credential settings = Some k -> (10 <= String.length k)%nat ->
  validateSettings rt rev settings = new_BrainSettingsValidationResult rt.
Proof.
  intros Hk Hlen. unfold validateSettings.
  rewrite (apiKey_rejected_long settings k Hk Hlen). reflexivity.
Qed.

Lemma validateSettings_rejected {V : Type} (rt : Runtime V) (rev : Revision)
    (settings : option ISettings) :
  ValidationLaws rt ->
  apiKey_rejected settings = true ->
  success rt (validateSettings rt rev settings) = false /\
  getMessage rt (validateSettings rt rev settings) <> "".
Proof.
  intros Laws Hrej. unfold validateSettings. rewrite Hrej.
  destruct rev; split.
  - apply (success_addFieldError rt Laws).
  - apply (getMessage_addFieldError rt Laws). discriminate.
  - apply (success_addError rt Laws).
  - apply (getMessage_addError rt Laws). unfold missing_key_content. discriminate.
Qed.

Lemma concat_snoc_nonempty (v : list string) (e : string) :
  e <> "" -> String.concat " " (v ++ [e]) <> "".
Proof.
  intros He. destruct v as [|x v]; [exact He|].
  cbn [app]. destruct (v ++ [e]) as [|y rest] eqn:Hv.
  - destruct v; discriminate.
  - change (String.concat " " (x :: y :: rest))
      with (x ++ " " ++ String.concat " " (y :: rest))%string.
    intros H. apply (f_equal String.length) in H.
    rewrite length_append in H. simpl in H. lia.
Qed.

Lemma sample_runtime_laws : ValidationLaws Sample.runtime.
Proof.
  split; simpl.
  - intros f e v. destruct v; reflexivity.
  - intros e v. destruct v; reflexivity.
  - intros f e v He. apply concat_snoc_nonempty. exact He.
  - intros e v He. apply concat_snoc_nonempty. exact He.
Qed.

(** C5: with a credential that is absent or shorter than 10 characters the
    settings check is unsuccessful, and each of the three operations returns
    at once: the world is unchanged (no client is built, nothing is read,
    no request is sent), the result is a non-empty message and there are no
    attachments. *)
Theorem invalid_key_short_circuits {V : Type} (rt : Runtime V) (rev : Revision)
    (context : IBrainPromptContext) (w : World) :
  ValidationLaws rt ->
  (forall k, credential (settings context) = Some k -> (String.length k < 10)%nat) ->
  success rt (validateSettings rt rev (settings context)) = false /\
  (forall prompts, exists r,
     sendTextPrompt rt rev prompts context w = (Returned r, w) /\
     result r <> "" /\ response_attachments r = None) /\
  (forall prompt, exists r,
     transcribeAudio rt rev prompt context w = (Returned r, w) /\
     result r <> "" /\ response_attachments r = None) /\
  (forall prompts, exists r,
     generateImage rt rev prompts context w = (Returned r, w) /\
     result r <> "" /\ response_attachments r = None).
Proof.
  intros Laws Hshort.
  destruct (validateSettings_rejected rt rev (settings context) Laws
              (apiKey_rejected_short _ Hshort)) as [Hfail Hmsg].
  split; [exact Hfail|].
  repeat split; intros p;
    unfold sendTextPrompt, transcribeAudio, generateImage;
    rewrite Hfail; cbn [negb];
    (eexists; split; [reflexivity | split; [exact Hmsg | reflexivity]]).
Qed.

(** A 5-character key: every operation answers with the explanation and
    leaves the world as it was. *)
Lemma invalid_key_short_circuits_witness :
  let context := Sample.context_with (Some "short") low in
  success Sample.runtime
    (validateSettings Sample.runtime rev_preview (settings context)) = false /\
  exists r,
    sendTextPrompt Sample.runtime rev_preview Sample.five_turns context
      Sample.world0 = (Returned r, Sample.world0) /\
    result r <> "" /\ response_attachments r = None.
Proof.
  intros context.
  assert (Hshort : forall k, credential (settings context) = Some k ->
                             (String.length k < 10)%nat).
  { intros k Hk. injection Hk as <-. simpl. lia. }
  destruct (invalid_key_short_circuits Sample.runtime rev_preview context
              Sample.world0 sample_runtime_laws Hshort) as [Hfail [Htext _]].
  split; [exact Hfail | exact (Htext Sample.five_turns)].
Defined.

(** ** Transcription *)

Lemma or_nonempty (l : string) (b : option string) :
  l <> "" -> Js.or (Some l) b = Some l.
Proof.
  intros H. unfold Js.or, Js.truthy. rewrite (string_eqb_false _ _ H). reflexivity.
Qed.

Lemma or_empty (a b : option string) :
  a = None \/ a = Some "" -> Js.or a b = b.
Proof. intros [-> | ->]; reflexivity. Qed.

(** C10: a transcription call that passes the settings check sends one
    request, and its language is the prompt's language when that is a
    non-empty string, else the default language of the settings when that is
    a non-empty string, else "en". *)
Theorem transcribeAudio_language {V : Type} (rt : Runtime V) (rev : Revision)
    (prompt : LocalAudioPrompt) (context : IBrainPromptContext)
    (s : ISettings) (w : World) :
  settings context = Some s ->
  success rt (validateSettings rt rev (settings context)) = true ->
  exists params,
    transcription_requests
      (events (snd (transcribeAudio rt rev prompt context w)))
    = transcription_requests (events w) ++ [params] /\
    (forall l, prompt_language prompt = Some l -> l <> "" ->
       language params = Some l) /\
    (prompt_language prompt = None \/ prompt_language prompt = Some "" ->
     forall d, audioTranscriberDefaultLanguage s = Some d -> d <> "" ->
       language params = Some d) /\
    (prompt_language prompt = None \/ prompt_language prompt = Some "" ->
     audioTranscriberDefaultLanguage s = None \/
     audioTranscriberDefaultLanguage s = Some "" ->
       language params = Some "en").
Proof.
  intros Hs Hok. exists (transcriptionParams prompt s). split.
  - unfold transcribeAudio. rewrite Hok. cbn [negb]. rewrite Hs.
    set (w0 := {| service := service w;
                  events := events w ++ [CreateReadStream (audioFilePath prompt)] |}).
    destruct (getClient_returns s w0) as [client [w1 [Hrun [_ Hev]]]].
    unfold bind at 1. unfold emit at 1. fold w0.
    unfold bind at 1. unfold defined, ret at 1.
    rewrite (bind_returned _ _ _ _ _ Hrun).
    unfold bind at 1. unfold emit at 1.
    assert (Hreq : transcription_requests (events w1)
                   = transcription_requests (events w)).
    { destruct Hev as [-> | ->]; unfold w0; simpl events;
        rewrite !transcription_requests_app; simpl; rewrite ?app_nil_r;
        reflexivity. }
    unfold bind, lift, ret.
    destruct (audio_transcriptions_create rt client (transcriptionParams prompt s));
      simpl; rewrite transcription_requests_app, Hreq; reflexivity.
  - unfold transcriptionParams. cbn [language]. repeat split.
    + intros l -> Hl. apply or_nonempty. exact Hl.
    + intros Hp d -> Hd. rewrite (or_empty _ _ Hp). apply or_nonempty. exact Hd.
    + intros Hp Hd. rewrite (or_empty _ _ Hp), (or_empty _ _ Hd). reflexivity.
Qed.

(** No language on the prompt, "pt" as the default of the settings: the
    request carries "pt". *)
Lemma transcribeAudio_language_witness :
  exists params,
    transcription_requests
      (events (snd (transcribeAudio Sample.runtime rev_4o Sample.audio
                      (Sample.context_with (Some Sample.good_key) low)
                      Sample.world0)))
    = [params] /\
    language params = Some "pt".
Proof.
  destruct (transcribeAudio_language Sample.runtime rev_4o Sample.audio
              (Sample.context_with (Some Sample.good_key) low)
              (Sample.settings_with (Some Sample.good_key) low)
              Sample.world0 eq_refl eq_refl)
    as [params [Hreq [_ [Hdefault _]]]].
  exists params. split; [exact Hreq|].
  apply Hdefault; [left; reflexivity | reflexivity | discriminate].
Defined.

(** ** Image generation *)

Lemma bind_ret {A B : Type} (a : A) (k : A -> M B) (w : World) :
  bind (ret a) k w = k a w.
Proof. reflexivity. Qed.

Lemma bind_emit {B : Type} (e : Event) (k : unit -> M B) (w : World) :
  bind (emit e) k w
  = k tt {| service := service w; events := events w ++ [e] |}.
Proof. reflexivity. Qed.

Lemma bind_assoc {A B C : Type} (m : M A) (k : A -> M B) (k' : B -> M C)
    (w : World) :
  bind (bind m k) k' w = bind m (fun x => bind (k x) k') w.
Proof. unfold bind. destruct (m w) as [[a|e] w']; reflexivity. Qed.

Lemma bind_lift_returned {A B : Type} (o : Outcome A) (a : A) (k : A -> M B)
    (w : World) :
  o = Returned a -> bind (lift o) k w = k a w.
Proof. intros ->. reflexivity. Qed.

Lemma bind_lift_Returned {A B : Type} (a : A) (k : A -> M B) (w : World) :
  bind (lift (Returned a)) k w = k a w.
Proof. reflexivity. Qed.

Lemma bind_lift_Thrown {A B : Type} (e : string) (k : A -> M B) (w : World) :
  bind (lift (Thrown e)) k w = (Thrown e, w).
Proof. reflexivity. Qed.

(** Run the steps of a call that need no case analysis. *)
Ltac run :=
  repeat first [ rewrite bind_assoc | rewrite bind_ret | rewrite bind_emit
               | rewrite bind_lift_Returned | rewrite bind_lift_Thrown ].

(** A call that passes the settings check, on a non-empty prompt list, gets
    the client, logs the request built from the last prompt, and goes on
    with the provider's answer. *)
Lemma generateImage_run {V : Type} (rt : Runtime V) (rev : Revision)
    (prompts : list ImageGenerationBrainPrompt)
    (prompt : ImageGenerationBrainPrompt)
    (context : IBrainPromptContext) (s : ISettings) (w : World) :
  Js.last_item prompts = Some prompt ->
  settings context = Some s ->
  success rt (validateSettings rt rev (settings context)) = true ->
  exists client w1,
    getClient (Some s) w = (Returned client, w1) /\
    image_requests (events w1) = image_requests (events w) /\
    let format :=
      if expectedResponseType prompt =? "base64" then "b64_json" else "url" in
    let params := imageGenerateParams rt rev prompt s (senderId context) format in
    generateImage rt rev prompts context w
    = (result <- lift (images_generate rt client params) ;;
       attachments <-
         mapM (imageAttachment rt prompt)
           (map (fun d => if format =? "url" then url d else b64_json d)
                (data result)) ;;
       ret {| result := "";
              response_attachments := Some attachments;
              validationResult := validateSettings rt rev (settings context) |})
        {| service := service w1;
           events := events w1 ++ [ImagesGenerate client params] |}.
Proof.
  intros Hlast Hs Hok.
  destruct (getClient_returns s w) as [client [w1 [Hrun [_ Hev]]]].
  exists client, w1. split; [exact Hrun|]. split.
  - destruct Hev as [-> | ->]; [reflexivity|].
    rewrite image_requests_app. simpl. apply app_nil_r.
  - intros format params. unfold generateImage.
    rewrite Hok. cbn [negb]. rewrite Hlast, Hs. cbn [defined]. run.
    rewrite (bind_returned _ _ _ _ _ Hrun). run. reflexivity.
Qed.

Lemma mapM_imageAttachment_plain {V : Type} (rt : Runtime V)
    (prompt : ImageGenerationBrainPrompt) (urls : list (option string))
    (w : World) :
  expectedResponseType prompt <> "binary" ->
  mapM (imageAttachment rt prompt) urls w
  = (Returned (map (fun u => png (file_string u)) urls), w).
Proof.
  intros Hnb. induction urls as [|u urls IH]; [reflexivity|].
  cbn [mapM map]. unfold imageAttachment at 1.
  rewrite (string_eqb_false _ _ Hnb). run.
  rewrite (bind_returned _ _ _ _ _ IH). reflexivity.
Qed.

Lemma mapM_imageAttachment_binary {V : Type} (rt : Runtime V)
    (prompt : ImageGenerationBrainPrompt) (urls : list (option string))
    (buffers : list Buffer) (w : World) :
  expectedResponseType prompt = "binary" ->
  Forall2 (fun u b => fetch_buffer rt u = Returned b) urls buffers ->
  mapM (imageAttachment rt prompt) urls w
  = (Returned (map (fun b => png (file_buffer b)) buffers),
     {| service := service w; events := events w ++ map Fetch urls |}).
Proof.
  intros Hb Hall. revert w.
  induction Hall as [|u b urls buffers Hu Hall IH]; intros w.
  - cbn [mapM map]. rewrite app_nil_r. destruct w; reflexivity.
  - cbn [mapM map]. unfold imageAttachment at 1.
    rewrite Hb, String.eqb_refl. run.
    rewrite (bind_lift_returned _ _ _ _ Hu). run.
    rewrite (bind_returned _ _ _ _ _ (IH _)). unfold ret. simpl.
    rewrite <- app_assoc. reflexivity.
Qed.

(** Fetching the images adds no image-generation request to the log. *)
Lemma mapM_imageAttachment_requests {V : Type} (rt : Runtime V)
    (prompt : ImageGenerationBrainPrompt) (urls : list (option string))
    (w : World) :
  image_requests (events (snd (mapM (imageAttachment rt prompt) urls w)))
  = image_requests (events w).
Proof.
  revert w. induction urls as [|u urls IH]; intros w; [reflexivity|].
  cbn [mapM]. unfold imageAttachment at 1.
  destruct (expectedResponseType prompt =? "binary").
  - run. destruct (fetch_buffer rt u) as [b|e]; run.
    + unfold bind at 1.
      match goal with |- context [mapM ?f urls ?w0] =>
        specialize (IH w0); destruct (mapM f urls w0) as [[ys|e] w'] end;
        simpl in *; rewrite IH, image_requests_app; simpl; apply app_nil_r.
    + simpl. rewrite image_requests_app. simpl. apply app_nil_r.
  - run. unfold bind at 1.
    specialize (IH w).
    destruct (mapM (imageAttachment rt prompt) urls w) as [[ys|e] w'];
      simpl in *; exact IH.
Qed.

Lemma imageModels_premium (label : option string) :
  Js.get imageModels label = Js.Str "dall-e-3" <-> label = Some "Dall-E 3".
Proof.
  unfold Js.get, imageModels. cbn [Js.own]. split.
  - intros H. destruct label as [k|].
    + destruct ("Dall-E 2" =? k) eqn:H2; [discriminate|].
      destruct ("Dall-E 3" =? k) eqn:H3.
      * apply String.eqb_eq in H3. now subst.
      * destruct (Js.mem k Js.Object_prototype_keys); discriminate.
    + discriminate.
  - intros ->. reflexivity.
Qed.

Lemma Property_eqb_spec (a b : Js.Property) :
  Js.Property_eqb a b = true <-> a = b.
Proof.
  destruct a, b; simpl; split; intros H;
    try discriminate; try reflexivity;
    try (apply String.eqb_eq in H; now subst);
    try (injection H as ->; apply String.eqb_refl).
Qed.

(** C8 (the revision with an image model setting): a call that passes the
    settings check sends one request; when the setting selects Dall-E 3 its
    count is 1 and its size "1024x1024" whatever the configured count and
    size, and for any other selection (Dall-E 2 among them) the count is the
    configured count, parsed, and the size the configured size. *)
Theorem generateImage_premium_override {V : Type} (rt : Runtime V)
    (prompts : list ImageGenerationBrainPrompt)
    (prompt : ImageGenerationBrainPrompt)
    (context : IBrainPromptContext) (s : ISettings) (w : World) :
  Js.last_item prompts = Some prompt ->
  settings context = Some s ->
  success rt (validateSettings rt rev_4o (settings context)) = true ->
  exists params,
    image_requests (events (snd (generateImage rt rev_4o prompts context w)))
    = image_requests (events w) ++ [params] /\
    (imageGenerationModel s = Some "Dall-E 3" ->
       image_model params = Some (Js.Str "dall-e-3") /\
       n params = Js.Int 1 /\ size params = "1024x1024") /\
    (imageGenerationModel s <> Some "Dall-E 3" ->
       n params = Number_parseInt rt (imageGenerationCount s) /\
       size params = imageGenerationSize s) /\
    (imageGenerationModel s = Some "Dall-E 2" ->
       image_model params = Some (Js.Str "dall-e-2")).
Proof.
  intros Hlast Hs Hok.
  destruct (generateImage_run rt rev_4o prompts prompt context s w Hlast Hs Hok)
    as [client [w1 [_ [Hreq Hrun]]]].
  cbv zeta in Hrun.
  exists (imageGenerateParams rt rev_4o prompt s (senderId context)
            (if expectedResponseType prompt =? "base64" then "b64_json" else "url")).
  split; [|split; [|split]].
  - rewrite Hrun. unfold bind at 1, lift at 1.
    destruct (images_generate rt client _) as [images|e].
    + unfold bind at 1.
      match goal with |- context [mapM ?f ?us ?w0] =>
        pose proof (mapM_imageAttachment_requests rt prompt us w0) as Hm;
        destruct (mapM f us w0) as [[ys|e] w'] end;
        cbn [snd] in *; unfold ret; cbn [snd]; rewrite Hm; cbn [events];
        rewrite image_requests_app, Hreq; reflexivity.
    + cbn [snd events]. rewrite image_requests_app, Hreq. reflexivity.
  - intros Hm. unfold imageGenerateParams. cbn [image_model n size].
    rewrite Hm. repeat split.
  - intros Hm. unfold imageGenerateParams. cbn [image_model n size].
    destruct (Js.Property_eqb _ _) eqn:He; [|split; reflexivity].
    apply Property_eqb_spec, imageModels_premium in He. contradiction.
  - intros Hm. unfold imageGenerateParams. cbn [image_model].
    rewrite Hm. reflexivity.
Qed.

(** Count "2" and size "512x512" configured, Dall-E 3 selected: the request
    asks for one image of 1024x1024. *)
Lemma generateImage_premium_override_witness :
  exists params,
    image_requests
      (events (snd (generateImage Sample.runtime rev_4o
                      [Sample.image_prompt "url"]
                      (Sample.context_with (Some Sample.good_key) low)
                      Sample.world0)))
    = [params] /\
    n params = Js.Int 1 /\ size params = "1024x1024".
Proof.
  destruct (generateImage_premium_override Sample.runtime
              [Sample.image_prompt "url"] (Sample.image_prompt "url")
              (Sample.context_with (Some Sample.good_key) low)
              (Sample.settings_with (Some Sample.good_key) low)
              Sample.world0 eq_refl eq_refl eq_refl)
    as [params [Hreq [Hpremium _]]].
  exists params. split; [exact Hreq|].
  destruct (Hpremium eq_refl) as [_ Hforced]. exact Hforced.
Defined.

(** C4: an image-generation call that passes the settings check, with the
    provider answering [images]: for 'url' each attachment carries the
    provider's URL as it came, for 'base64' the provider's base64 string as
    it came, for 'binary' the bytes fetched from the provider's URL; every
    attachment has fileType 'image' and mimeType 'image/png', there is one
    attachment per returned image in the provider's order, and the result
    text is empty. *)
Theorem generateImage_attachments {V : Type} (rt : Runtime V) (rev : Revision)
    (prompts : list ImageGenerationBrainPrompt)
    (prompt : ImageGenerationBrainPrompt)
    (context : IBrainPromptContext) (s : ISettings) (w : World) :
  Js.last_item prompts = Some prompt ->
  settings context = Some s ->
  success rt (validateSettings rt rev (settings context)) = true ->
  exists client params,
    fst (getClient (Some s) w) = Returned client /\
    params
    = imageGenerateParams rt rev prompt s (senderId context)
        (if expectedResponseType prompt =? "base64" then "b64_json" else "url") /\
    forall images,
      images_generate rt client params = Returned images ->
      let answer files :=
        Returned {| result := "";
                    response_attachments := Some files;
                    validationResult :=
                      validateSettings rt rev (settings context) |} in
      (expectedResponseType prompt = "url" ->
         fst (generateImage rt rev prompts context w)
         = answer (map (fun d => png (file_string (url d))) (data images))) /\
      (expectedResponseType prompt = "base64" ->
         fst (generateImage rt rev prompts context w)
         = answer (map (fun d => png (file_string (b64_json d))) (data images))) /\
      (expectedResponseType prompt = "binary" ->
         forall buffers,
           Forall2 (fun d b => fetch_buffer rt (url d) = Returned b)
                   (data images) buffers ->
           fst (generateImage rt rev prompts context w)
           = answer (map (fun b => png (file_buffer b)) buffers)).
Proof.
  intros Hlast Hs Hok.
  destruct (generateImage_run rt rev prompts prompt context s w Hlast Hs Hok)
    as [client [w1 [Hclient [_ Hrun]]]].
  cbv zeta in Hrun.
  exists client. eexists. split; [now rewrite Hclient|]. split; [reflexivity|].
  intros images Himages answer. rewrite Hrun.
  rewrite (bind_lift_returned _ _ _ _ Himages).
  split; [|split].
  - intros Hurl. rewrite Hurl. cbn [String.eqb Ascii.eqb Bool.eqb]. cbv iota.
    rewrite (bind_returned _ _ _ _ _
               (mapM_imageAttachment_plain rt prompt _ _
                  ltac:(rewrite Hurl; discriminate))).
    unfold ret, answer. cbn [fst]. rewrite map_map. reflexivity.
  - intros Hb64. rewrite Hb64. cbn [String.eqb Ascii.eqb Bool.eqb]. cbv iota.
    rewrite (bind_returned _ _ _ _ _
               (mapM_imageAttachment_plain rt prompt _ _
                  ltac:(rewrite Hb64; discriminate))).
    unfold ret, answer. cbn [fst]. rewrite map_map. reflexivity.
  - intros Hbin buffers Hfetch. rewrite Hbin.
    cbn [String.eqb Ascii.eqb Bool.eqb]. cbv iota.
    assert (Hurls : Forall2 (fun u b => fetch_buffer rt u = Returned b)
                      (map (fun d => url d) (data images)) buffers).
    { clear -Hfetch. induction Hfetch; constructor; assumption. }
    rewrite (bind_returned _ _ _ _ _
               (mapM_imageAttachment_binary rt prompt _ _ _ Hbin Hurls)).
    reflexivity.
Qed.

(** A 'binary' prompt on the sample provider, which returns one URL: one
    attachment, tagged image/png, carrying the fetched bytes. *)
Lemma generateImage_attachments_witness :
  fst (generateImage Sample.runtime rev_preview [Sample.image_prompt "binary"]
         (Sample.context_with (Some Sample.good_key) low) Sample.world0)
  = Returned {| result := "";
                response_attachments :=
                  Some [ {| file_data := file_buffer Sample.png_bytes;
                            fileType := "image";
                            file_mimeType := "image/png" |} ];
                validationResult := [] |}.
Proof.
  destruct (generateImage_attachments Sample.runtime rev_preview
              [Sample.image_prompt "binary"] (Sample.image_prompt "binary")
              (Sample.context_with (Some Sample.good_key) low)
              (Sample.settings_with (Some Sample.good_key) low)
              Sample.world0 eq_refl eq_refl eq_refl)
    as [client [params [_ [Hparams Hanswer]]]].
  destruct (Hanswer {| data := [ {| url := Some Sample.generated_url;
                                    b64_json := None |} ] |})
    as [_ [_ Hbinary]].
  - rewrite Hparams. reflexivity.
  - apply (Hbinary eq_refl [Sample.png_bytes]).
    constructor; [reflexivity | constructor].
Defined.

(** ** Composing the content of a turn *)

Lemma truthy_count_images (m : TextBrainPrompt) :
  truthy_count (image_count m) = true <-> image_attachments m <> [].
Proof.
  unfold truthy_count, image_count, image_attachments.
  destruct (attachments m) as [atts|].
  - destruct (filter _ atts); simpl; split; intros H;
      congruence || reflexivity || discriminate.
  - split; intros H; congruence.
Qed.

Lemma truthy_count_no_images (m : TextBrainPrompt) :
  truthy_count (image_count m) = false <-> image_attachments m = [].
Proof.
  unfold truthy_count, image_count, image_attachments.
  destruct (attachments m) as [atts|].
  - destruct (filter _ atts); simpl; split; intros H;
      congruence || reflexivity || discriminate.
  - split; intros H; reflexivity.
Qed.

Lemma convertImageAttachmentToBase64_readable {V : Type} (rt : Runtime V)
    (a : FileAttachment) (bytes : Buffer) (w : World) :
  readFileSync rt (path a) = Returned bytes ->
  convertImageAttachmentToBase64 rt a w
  = (Returned (data_url rt a bytes),
     {| service := service w; events := events w ++ [ReadFileSync (path a)] |}).
Proof.
  intros H. unfold convertImageAttachmentToBase64. run.
  rewrite (bind_lift_returned _ _ _ _ H). reflexivity.
Qed.

(** The fidelity of an image part: the configured one when the text of its
    turn equals the text of the last turn, low otherwise. *)
Lemma imagePart_readable {V : Type} (rt : Runtime V) (s : ISettings)
    (last message0 : TextBrainPrompt) (a : FileAttachment) (bytes : Buffer)
    (w : World) :
  readFileSync rt (path a) = Returned bytes ->
  imagePart rt (Some s) (Some last) message0 a w
  = (Returned (image_url_part (data_url rt a bytes)
                 (if message message0 =? message last
                  then imageDetail s else low)),
     {| service := service w; events := events w ++ [ReadFileSync (path a)] |}).
Proof.
  intros H. unfold imagePart.
  rewrite (bind_returned _ _ _ _ _
             (convertImageAttachmentToBase64_readable rt a bytes w H)).
  cbn [defined]. run.
  destruct (message message0 =? message last); run; reflexivity.
Qed.

Lemma mapM_imagePart_readable {V : Type} (rt : Runtime V) (s : ISettings)
    (last message0 : TextBrainPrompt) (atts : list FileAttachment)
    (buffers : list Buffer) (w : World) :
  Forall2 (fun a b => readFileSync rt (path a) = Returned b) atts buffers ->
  mapM (imagePart rt (Some s) (Some last) message0) atts w
  = (Returned
       (map (fun ab => image_url_part (data_url rt (fst ab) (snd ab))
                         (if message message0 =? message last
                          then imageDetail s else low))
            (combine atts buffers)),
     {| service := service w;
        events := events w ++ map (fun a => ReadFileSync (path a)) atts |}).
Proof.
  intros Hall. revert w.
  induction Hall as [|a b atts buffers Ha Hall IH]; intros w.
  - cbn [mapM map combine]. rewrite app_nil_r. destruct w; reflexivity.
  - cbn [mapM map combine].
    rewrite (bind_returned _ _ _ _ _ (imagePart_readable rt s last message0 a b w Ha)).
    rewrite (bind_returned _ _ _ _ _ (IH _)). unfold ret. cbn [service events fst snd].
    rewrite <- app_assoc. reflexivity.
Qed.

Lemma imagePart_shape {V : Type} (rt : Runtime V)
    (ctx_settings : option ISettings) (lastPrompt : option TextBrainPrompt)
    (message0 : TextBrainPrompt) (a : FileAttachment) (w w' : World)
    (p : ContentPart) :
  imagePart rt ctx_settings lastPrompt message0 a w = (Returned p, w') ->
  is_image_part p = true.
Proof.
  unfold imagePart, bind.
  destruct (convertImageAttachmentToBase64 rt a w) as [[u|e] w1]; [|discriminate].
  destruct (defined lastPrompt w1) as [[last|e] w2]; [|discriminate].
  destruct (message message0 =? message last).
  - destruct (defined ctx_settings w2) as [[s|e] w3]; [|discriminate].
    unfold ret. intros H. injection H as <- _. reflexivity.
  - unfold ret. intros H. injection H as <- _. reflexivity.
Qed.

Lemma mapM_imagePart_shape {V : Type} (rt : Runtime V)
    (ctx_settings : option ISettings) (lastPrompt : option TextBrainPrompt)
    (message0 : TextBrainPrompt) (atts : list FileAttachment) (w w' : World)
    (parts : list ContentPart) :
  mapM (imagePart rt ctx_settings lastPrompt message0) atts w
  = (Returned parts, w') ->
  length parts = length atts /\ Forall (fun p => is_image_part p = true) parts.
Proof.
  revert w w' parts. induction atts as [|a atts IH]; intros w w' parts.
  - cbn [mapM]. unfold ret. intros H. injection H as <- _. split; constructor.
  - cbn [mapM]. unfold bind at 1.
    destruct (imagePart rt ctx_settings lastPrompt message0 a w)
      as [[p|e] w1] eqn:Hp; [|discriminate].
    unfold bind at 1.
    destruct (mapM _ atts w1) as [[ps|e] w2] eqn:Hps; [|discriminate].
    unfold ret. intros H. injection H as <- _.
    destruct (IH _ _ _ Hps) as [Hlen Hall]. split.
    + simpl. now rewrite Hlen.
    + constructor; [exact (imagePart_shape _ _ _ _ _ _ _ _ Hp) | exact Hall].
Qed.

(** C7: the content of a turn is its plain message text when the turn has no
    attachment whose mimeType starts with "image/" or its role is "brain".
    Otherwise the turn has attachments, and the content, whenever one is
    returned, is a sequence of parts: the message text first, then one image
    part per attachment; one is returned when every attachment's file can be
    read. *)
Theorem getMessageContent_shape {V : Type} (rt : Runtime V)
    (ctx_settings : option ISettings) (lastPrompt : option TextBrainPrompt)
    (m : TextBrainPrompt) (w : World) :
  (image_attachments m = [] \/ role m = "brain" ->
     getMessageContent rt ctx_settings lastPrompt m w
     = (Returned (content_string (message m)), w)) /\
  (image_attachments m <> [] -> role m <> "brain" ->
     exists atts,
       attachments m = Some atts /\
       (forall c w',
          getMessageContent rt ctx_settings lastPrompt m w = (Returned c, w') ->
          exists parts,
            c = content_parts (text_part (message m) :: parts) /\
            length parts = length atts /\
            Forall (fun p => is_image_part p = true) parts) /\
       (forall s last buffers,
          ctx_settings = Some s -> lastPrompt = Some last ->
          Forall2 (fun a b => readFileSync rt (path a) = Returned b)
                  atts buffers ->
          exists parts,
            fst (getMessageContent rt ctx_settings lastPrompt m w)
            = Returned (content_parts (text_part (message m) :: parts)) /\
            length parts = length atts)).
Proof.
  split.
  - intros Hplain. unfold getMessageContent.
    replace (negb (truthy_count (image_count m)) || (role m =? "brain"))
      with true; [reflexivity|].
    symmetry. apply orb_true_iff. destruct Hplain as [Hno | Hbrain].
    + left. apply negb_true_iff, truthy_count_no_images. exact Hno.
    + right. rewrite Hbrain. reflexivity.
  - intros Himg Hrole. unfold getMessageContent.
    apply truthy_count_images in Himg as Hcount. rewrite Hcount.
    rewrite (string_eqb_false _ _ Hrole). cbn [negb orb].
    destruct (attachments m) as [atts|] eqn:Hatts.
    2:{ unfold image_attachments in Himg. rewrite Hatts in Himg. congruence. }
    exists atts. split; [reflexivity|]. cbn [defined]. split.
    + intros c w'. run. unfold bind at 1.
      destruct (mapM _ atts w) as [[parts|e] w1] eqn:Hparts; [|discriminate].
      unfold ret. intros H. injection H as <- _.
      exists parts. split; [reflexivity|].
      exact (mapM_imagePart_shape _ _ _ _ _ _ _ _ Hparts).
    + intros s last buffers -> -> Hread. run.
      rewrite (bind_returned _ _ _ _ _
                 (mapM_imagePart_readable rt s last m atts buffers w Hread)).
      eexists. split; [reflexivity|].
      rewrite length_map, length_combine.
      apply Forall2_length in Hread. lia.
Qed.

(** A brain turn with an image stays plain text; a user turn with one
    readable image becomes the text part and one image part. *)
Lemma getMessageContent_shape_witness :
  let s := Sample.settings_with (Some Sample.good_key) high in
  let answer := Sample.turn "brain" "a cat" (Some [Sample.cat]) in
  let question := Sample.turn "user" "what is this?" (Some [Sample.cat]) in
  getMessageContent Sample.runtime (Some s) (Some question) answer Sample.world0
  = (Returned (content_string "a cat"), Sample.world0) /\
  exists parts,
    fst (getMessageContent Sample.runtime (Some s) (Some question) question
           Sample.world0)
    = Returned (content_parts (text_part "what is this?" :: parts)) /\
    length parts = 1%nat.
Proof.
  intros s answer question. split.
  - apply (getMessageContent_shape Sample.runtime (Some s) (Some question)
             answer Sample.world0).
    right. reflexivity.
  - destruct (getMessageContent_shape Sample.runtime (Some s) (Some question)
                question Sample.world0) as [_ Hparts].
    destruct Hparts as [atts [Hatts [_ Hread]]]; [discriminate | discriminate |].
    injection Hatts as <-.
    apply (Hread s question [Sample.png_bytes] eq_refl eq_refl).
    constructor; [reflexivity | constructor].
Defined.

(** ** Choosing the text model *)

Lemma hasImageAttached_some (turns : list TextBrainPrompt) :
  (0 <? hasImageAttached turns)%nat = true <->
  exists m, In m turns /\ image_attachments m <> [].
Proof.
  unfold hasImageAttached. induction turns as [|t turns IH].
  - simpl. split; [discriminate | intros [m [[] _]]].
  - cbn [filter]. destruct (truthy_count (image_count t)) eqn:Ht.
    + split; [|reflexivity]. intros _. exists t. split; [now left|].
      apply truthy_count_images. exact Ht.
    + rewrite IH. split.
      * intros [m [Hin Hm]]. exists m. split; [now right | exact Hm].
      * intros [m [[<- | Hin] Hm]].
        -- apply truthy_count_images in Hm. congruence.
        -- exists m. split; assumption.
Qed.

Lemma hasImageAttached_none (turns : list TextBrainPrompt) :
  (forall m, In m turns -> image_attachments m = []) ->
  (0 <? hasImageAttached turns)%nat = false.
Proof.
  intros Hnone. destruct (0 <? hasImageAttached turns)%nat eqn:H; [|reflexivity].
  apply hasImageAttached_some in H. destruct H as [m [Hin Hm]].
  now rewrite (Hnone m Hin) in Hm.
Qed.

Lemma vision_entry (rev : Revision) :
  Js.get (textModels rev) (Some "vision") = Js.Str (vision_model rev).
Proof. destruct rev; reflexivity. Qed.

(** ** The chat request *)

Lemma sends_no_chat_ret {A : Type} (a : A) : sends_no_chat (ret a).
Proof. intros w. reflexivity. Qed.

Lemma sends_no_chat_defined {A : Type} (v : option A) : sends_no_chat (defined v).
Proof. intros w. destruct v; reflexivity. Qed.

Lemma sends_no_chat_lift {A : Type} (o : Outcome A) : sends_no_chat (lift o).
Proof. intros w. reflexivity. Qed.

Lemma sends_no_chat_emit (e : Event) :
  chat_requests [e] = [] -> sends_no_chat (emit e).
Proof.
  intros He w. unfold emit. cbn [snd events].
  rewrite chat_requests_app, He. apply app_nil_r.
Qed.

Lemma sends_no_chat_bind {A B : Type} (m : M A) (k : A -> M B) :
  sends_no_chat m -> (forall a, sends_no_chat (k a)) -> sends_no_chat (bind m k).
Proof.
  intros Hm Hk w. unfold bind. specialize (Hm w).
  destruct (m w) as [[a|e] w1]; cbn [snd] in *.
  - rewrite (Hk a w1). exact Hm.
  - exact Hm.
Qed.

Lemma sends_no_chat_mapM {A B : Type} (f : A -> M B) (xs : list A) :
  (forall x, sends_no_chat (f x)) -> sends_no_chat (mapM f xs).
Proof.
  intros Hf. induction xs as [|x xs IH]; cbn [mapM].
  - apply sends_no_chat_ret.
  - apply sends_no_chat_bind; [apply Hf|]. intros y.
    apply sends_no_chat_bind; [exact IH|]. intros ys. apply sends_no_chat_ret.
Qed.

Create HintDb quiet.

#[local] Hint Resolve sends_no_chat_ret sends_no_chat_defined sends_no_chat_lift
  sends_no_chat_bind sends_no_chat_mapM : quiet.

Lemma sends_no_chat_getMessageContent {V : Type} (rt : Runtime V)
    (ctx_settings : option ISettings) (lastPrompt : option TextBrainPrompt)
    (m : TextBrainPrompt) :
  sends_no_chat (getMessageContent rt ctx_settings lastPrompt m).
Proof.
  unfold getMessageContent.
  destruct (negb (truthy_count (image_count m)) || (role m =? "brain"));
    [auto with quiet|].
  apply sends_no_chat_bind; [auto with quiet|]. intros atts.
  apply sends_no_chat_bind; [|auto with quiet].
  apply sends_no_chat_mapM. intros a. unfold imagePart.
  apply sends_no_chat_bind.
  - unfold convertImageAttachmentToBase64.
    apply sends_no_chat_bind; [now apply sends_no_chat_emit|]. intros _.
    auto with quiet.
  - intros u. apply sends_no_chat_bind; [auto with quiet|]. intros last.
    apply sends_no_chat_bind; [|auto with quiet].
    destruct (message m =? message last); auto with quiet.
Qed.

Lemma sends_no_chat_chatMessage {V : Type} (rt : Runtime V)
    (ctx_settings : option ISettings) (lastPrompt : option TextBrainPrompt)
    (m : TextBrainPrompt) :
  sends_no_chat (chatMessage rt ctx_settings lastPrompt m).
Proof.
  unfold chatMessage. apply sends_no_chat_bind.
  - apply sends_no_chat_getMessageContent.
  - auto with quiet.
Qed.

(** What a text call that passes the settings check sends: when the messages
    of the windowed turns can be composed, exactly one chat request, with the
    selected model, those messages and the budget as [max_tokens]; when
    composing them throws, no chat request. *)
Lemma sendTextPrompt_request {V : Type} (rt : Runtime V) (rev : Revision)
    (prompts : list TextBrainPrompt) (context : IBrainPromptContext)
    (s : ISettings) (w : World) :
  settings context = Some s ->
  success rt (validateSettings rt rev (settings context)) = true ->
  let budget := historyBudget (Some s) in
  let turns := truncateStringList prompts budget in
  let chosen :=
    if (0 <? hasImageAttached turns)%nat
    then Js.Str (vision_model rev)
    else Js.get (textModels rev) (textModel s) in
  let sent :=
    chat_requests (events (snd (sendTextPrompt rt rev prompts context w))) in
  match fst (mapM (chatMessage rt (Some s) (Js.last_item turns)) turns w) with
  | Returned msgs =>
      sent = chat_requests (events w)
             ++ [ {| model := chosen; messages := msgs; max_tokens := budget |} ]
  | Thrown _ => sent = chat_requests (events w)
  end.
Proof.
  intros Hs Hok budget turns chosen sent. subst sent.
  unfold sendTextPrompt. rewrite Hok. cbn [negb]. rewrite Hs.
  fold budget. fold turns.
  assert (Hmodel : textModel_of rev (Some s) (hasImageAttached turns) w
                   = (Returned chosen, w)).
  { unfold textModel_of, chosen.
    destruct (0 <? hasImageAttached turns)%nat;
      [rewrite vision_entry|]; reflexivity. }
  rewrite (bind_returned _ _ _ _ _ Hmodel).
  pose proof (sends_no_chat_mapM _ turns
                (sends_no_chat_chatMessage rt (Some s) (Js.last_item turns)) w)
    as Hquiet.
  destruct (mapM (chatMessage rt (Some s) (Js.last_item turns)) turns w)
    as [[msgs|e] w1] eqn:Hmsgs; cbn [fst snd] in *.
  2:{ rewrite (bind_thrown _ _ _ _ _ Hmsgs). exact Hquiet. }
  rewrite (bind_returned _ _ _ _ _ Hmsgs).
  destruct (getClient_returns s w1) as [client [w2 [Hclient [_ Hev]]]].
  rewrite (bind_returned _ _ _ _ _ Hclient). run.
  assert (Hreq : chat_requests (events w2) = chat_requests (events w)).
  { rewrite <- Hquiet. destruct Hev as [-> | ->]; [reflexivity|].
    rewrite chat_requests_app. apply app_nil_r. }
  match goal with |- context [bind (lift ?o) ?k ?w0] =>
    assert (Hrest : sends_no_chat (bind (lift o) k))
      by auto 10 with quiet;
    rewrite (Hrest w0) end.
  cbn [events]. rewrite chat_requests_app, Hreq. reflexivity.
Qed.

(** C2 (the code departs from it): only the images of the last turn of the
    windowed list should get the configured fidelity, those of earlier turns
    'low'.  Here two user turns carry the same text, each with one image, and
    the configured fidelity is 'high': the request gives 'high' to the image
    of the first turn too, because the turn is compared with the last one by
    its message text. *)
Theorem sendTextPrompt_repeated_text_detail :
  chat_requests
    (events
       (snd (sendTextPrompt Sample.runtime rev_preview Sample.repeated_question
               (Sample.context_with (Some Sample.good_key) high)
               Sample.world0)))
  = [ {| model := Js.Str "gpt-4-vision-preview";
         messages :=
           [ {| chat_role := "user";
                content :=
                  content_parts
                    [ text_part "what is this?";
                      image_url_part "data:image/png;base64,iVBORw==" high ] |};
             {| chat_role := "user";
                content :=
                  content_parts
                    [ text_part "what is this?";
                      image_url_part "data:image/png;base64,iVBORw0=" high ] |} ];
         max_tokens := 3000 |} ].
Proof. vm_compute. reflexivity. Qed.

(* ================================================================== *)
(** * Further properties *)

(** ** More on the history window *)

Lemma truncate_loop_nonempty (turns : list TextBrainPrompt) (total maxCharacters : Z) :
  turns <> [] -> truncate_loop turns total maxCharacters <> [].
Proof.
  revert total. induction turns as [|m turns IH]; intros total Hne; [congruence|].
  cbn [truncate_loop].
  destruct ((total >? maxCharacters)%Z && (1 <? length (m :: turns))%nat) eqn:Hc;
    [|discriminate].
  apply andb_true_iff in Hc. destruct Hc as [_ Hlen].
  apply Nat.ltb_lt in Hlen. apply IH.
  destruct turns; [simpl in Hlen; lia | discriminate].
Qed.

Lemma truncate_loop_is_suffix (turns : list TextBrainPrompt) (total maxCharacters : Z) :
  exists dropped, turns = dropped ++ truncate_loop turns total maxCharacters.
Proof.
  revert total. induction turns as [|m turns IH]; intros total.
  - exists []. reflexivity.
  - cbn [truncate_loop].
    destruct ((total >? maxCharacters)%Z && (1 <? length (m :: turns))%nat).
    + destruct (IH (total - Z.of_nat (String.length (message m)))%Z) as [d Hd].
      exists (m :: d). simpl. f_equal. exact Hd.
    + exists []. reflexivity.
Qed.

(** X1: The window of any turn list, under any budget, is a suffix of the list,
    and it is empty only when the list is. *)
Theorem truncateStringList_suffix_nonempty
    (turns : list TextBrainPrompt) (maxCharacters : Z) :
  (exists dropped, turns = dropped ++ truncateStringList turns maxCharacters) /\
  (truncateStringList turns maxCharacters = [] <-> turns = []).
Proof.
  unfold truncateStringList.
  destruct (length turns <=? 2)%nat.
  - split; [exists []; reflexivity | reflexivity].
  - split; [apply truncate_loop_is_suffix|]. split.
    + intros H. destruct turns as [|m turns]; [reflexivity|].
      exfalso. revert H. apply truncate_loop_nonempty. discriminate.
    + intros ->. reflexivity.
Qed.

(** The loop drops no more than it has to: putting back any of the dropped
    turns exceeds the budget. *)
Lemma truncate_loop_longest (turns dropped : list TextBrainPrompt) (maxCharacters : Z) :
  turns = dropped ++ truncate_loop turns (message_total turns) maxCharacters ->
  forall pre rest, dropped = pre ++ rest -> rest <> [] ->
    (maxCharacters
     < message_total (rest ++ truncate_loop turns (message_total turns) maxCharacters))%Z.
Proof.
  revert dropped. induction turns as [|m turns IH]; intros dropped Hsplit pre rest Hd Hrest.
  - destruct dropped; [|discriminate]. destruct pre; destruct rest; try discriminate.
    congruence.
  - cbn [truncate_loop] in *.
    destruct ((message_total (m :: turns) >? maxCharacters)%Z
              && (1 <? length (m :: turns))%nat) eqn:Hc.
    + replace (message_total (m :: turns) - Z.of_nat (String.length (message m)))%Z
        with (message_total turns) in * by (simpl; lia).
      apply andb_true_iff in Hc. destruct Hc as [Hgt _].
      rewrite Z.gtb_ltb in Hgt. apply Z.ltb_lt in Hgt.
      destruct (truncate_loop_is_suffix turns (message_total turns) maxCharacters)
        as [d Hdrop].
      assert (Hdropped : dropped = m :: d).
      { apply (app_inv_tail (truncate_loop turns (message_total turns) maxCharacters)).
        rewrite <- Hsplit. simpl. f_equal. exact Hdrop. }
      rewrite Hdropped in Hd. destruct pre as [|x pre].
      * simpl in Hd. rewrite <- Hd. simpl app. rewrite <- Hdrop. exact Hgt.
      * simpl in Hd. injection Hd as _ Hd.
        apply (IH d Hdrop pre rest Hd Hrest).
    + assert (Hnil : dropped = []).
      { apply (f_equal (@length _)) in Hsplit. rewrite length_app in Hsplit.
        destruct dropped; [reflexivity | simpl in Hsplit; lia]. }
      rewrite Hnil in Hd. destruct pre; destruct rest; try discriminate. congruence.
Qed.

(** X2: On more than 2 turns the window is the longest suffix the loop can keep:
    the window together with any of the dropped turns that come right before
    it exceeds the budget. *)
Theorem truncateStringList_longest
    (turns dropped : list TextBrainPrompt) (maxCharacters : Z) :
  (2 < length turns)%nat ->
  turns = dropped ++ truncateStringList turns maxCharacters ->
  forall pre rest, dropped = pre ++ rest -> rest <> [] ->
    (maxCharacters
     < message_total (rest ++ truncateStringList turns maxCharacters))%Z.
Proof.
  intros Hlen. unfold truncateStringList.
  assert (Hleb : (length turns <=? 2)%nat = false) by (apply Nat.leb_gt; lia).
  rewrite Hleb, totalCharacters_sum. apply truncate_loop_longest.
Qed.

Lemma truncateStringList_longest_witness :
  (3000 < message_total
            (skipn 1 (firstn 2 Sample.five_turns)
             ++ truncateStringList Sample.five_turns 3000))%Z.
Proof.
  apply (truncateStringList_longest Sample.five_turns
           (firstn 2 Sample.five_turns) 3000
           ltac:(simpl; lia) eq_refl
           (firstn 1 Sample.five_turns) (skipn 1 (firstn 2 Sample.five_turns))
           eq_refl).
  discriminate.
Defined.

(** The two cases of the window on more than 2 turns. *)
Lemma truncateStringList_long (turns : list TextBrainPrompt) (maxCharacters : Z) :
  (2 < length turns)%nat ->
  truncateStringList turns maxCharacters
  = truncate_loop turns (message_total turns) maxCharacters.
Proof.
  intros Hlen. unfold truncateStringList.
  assert (Hleb : (length turns <=? 2)%nat = false) by (apply Nat.leb_gt; lia).
  rewrite Hleb, totalCharacters_sum. reflexivity.
Qed.

Lemma truncateStringList_short (turns : list TextBrainPrompt) (maxCharacters : Z) :
  (length turns <= 2)%nat -> truncateStringList turns maxCharacters = turns.
Proof.
  intros H. unfold truncateStringList. apply Nat.leb_le in H. now rewrite H.
Qed.

(** X3: Windowing a window changes nothing. *)
Theorem truncateStringList_idempotent
    (turns : list TextBrainPrompt) (maxCharacters : Z) :
  truncateStringList (truncateStringList turns maxCharacters) maxCharacters
  = truncateStringList turns maxCharacters.
Proof.
  destruct (Nat.le_gt_cases (length turns) 2) as [Hshort | Hlong].
  - rewrite (truncateStringList_short turns maxCharacters Hshort).
    apply truncateStringList_short. exact Hshort.
  - set (kept := truncateStringList turns maxCharacters).
    destruct (Nat.le_gt_cases (length kept) 2) as [Hk | Hk].
    + apply truncateStringList_short. exact Hk.
    + assert (Hfit : (message_total kept <= maxCharacters)%Z).
      { unfold kept in *. rewrite (truncateStringList_long _ _ Hlong) in *.
        destruct (truncate_loop_suffix turns maxCharacters) as [d [_ [Hf | H1]]].
        - destruct turns; [simpl in Hlong; lia | discriminate].
        - exact Hf.
        - lia. }
      rewrite (truncateStringList_long kept maxCharacters Hk).
      apply truncate_loop_fits. exact Hfit.
Qed.

(** X4: With more than 2 turns and a last message longer than the budget, the
    window is the last turn alone (a list of 2 turns would be kept whole). *)
Theorem truncateStringList_oversized_last
    (earlier : list TextBrainPrompt) (lastTurn : TextBrainPrompt)
    (maxCharacters : Z) :
  (2 <= length earlier)%nat ->
  (maxCharacters < Z.of_nat (String.length (message lastTurn)))%Z ->
  truncateStringList (earlier ++ [lastTurn]) maxCharacters = [lastTurn].
Proof.
  intros Hlen Hbig.
  set (turns := earlier ++ [lastTurn]).
  assert (Hlong : (2 < length turns)%nat)
    by (unfold turns; rewrite length_app; simpl; lia).
  assert (Hnonempty : turns <> [])
    by (unfold turns; destruct earlier; discriminate).
  rewrite (truncateStringList_long turns maxCharacters Hlong).
  destruct (truncate_loop_suffix turns maxCharacters Hnonempty)
    as [dropped [Hsplit Hkept]].
  pose proof (truncate_loop_nonempty turns (message_total turns) maxCharacters
                Hnonempty) as Hne.
  set (kept := truncate_loop turns (message_total turns) maxCharacters) in *.
  destruct (exists_last Hne) as [front [x Hx]].
  assert (Hlast : x = lastTurn).
  { unfold turns in Hsplit. rewrite Hx, app_assoc in Hsplit.
    apply app_inj_tail in Hsplit. symmetry. apply Hsplit. }
  subst x. destruct Hkept as [Hfit | Hone].
  - exfalso. rewrite Hx in Hfit. clear -Hfit Hbig.
    induction front as [|y front IH]; simpl in *; lia.
  - rewrite Hx in Hone |- *. rewrite length_app in Hone. simpl in Hone.
    destruct front; [reflexivity | simpl in Hone; lia].
Qed.

Lemma truncateStringList_oversized_last_witness :
  truncateStringList Sample.five_turns 999 = skipn 4 Sample.five_turns.
Proof.
  apply (truncateStringList_oversized_last (firstn 4 Sample.five_turns)
           (Sample.turn "user" (Sample.filler 1000) None) 999).
  - simpl. lia.
  - vm_compute. reflexivity.
Defined.

Lemma truncate_loop_budget_monotone (turns : list TextBrainPrompt)
    (total small large : Z) :
  (small <= large)%Z ->
  exists pre,
    truncate_loop turns total large = pre ++ truncate_loop turns total small.
Proof.
  intros Hle. revert total. induction turns as [|m turns IH]; intros total.
  - exists []. reflexivity.
  - cbn [truncate_loop].
    destruct ((total >? large)%Z && (1 <? length (m :: turns))%nat) eqn:Hl.
    + apply andb_true_iff in Hl. destruct Hl as [Hgt Hlen].
      rewrite Z.gtb_ltb in Hgt. apply Z.ltb_lt in Hgt.
      replace (total >? small)%Z with true
        by (symmetry; rewrite Z.gtb_ltb; apply Z.ltb_lt; lia).
      rewrite Hlen. cbn [andb]. apply IH.
    + destruct ((total >? small)%Z && (1 <? length (m :: turns))%nat).
      * destruct (truncate_loop_is_suffix turns
                    (total - Z.of_nat (String.length (message m)))%Z small)
          as [d Hd].
        exists (m :: d). simpl. f_equal. exact Hd.
      * exists []. reflexivity.
Qed.

(** X5: A larger budget never keeps less: the window under the smaller budget is
    a suffix of the window under the larger one. *)
Theorem truncateStringList_budget_monotone
    (turns : list TextBrainPrompt) (small large : Z) :
  (small <= large)%Z ->
  exists pre,
    truncateStringList turns large = pre ++ truncateStringList turns small.
Proof.
  intros Hle. unfold truncateStringList.
  destruct (length turns <=? 2)%nat.
  - exists []. reflexivity.
  - apply truncate_loop_budget_monotone. exact Hle.
Qed.

Lemma truncateStringList_budget_monotone_witness :
  exists pre,
    truncateStringList Sample.five_turns 4000
    = pre ++ truncateStringList Sample.five_turns 2500.
Proof.
  apply (truncateStringList_budget_monotone Sample.five_turns 2500 4000). lia.
Defined.

Lemma truncate_loop_same_lengths (a b : list TextBrainPrompt) (total maxCharacters : Z) :
  Forall2 (fun x y => String.length (message x) = String.length (message y)) a b ->
  length (truncate_loop a total maxCharacters)
  = length (truncate_loop b total maxCharacters).
Proof.
  intros Hall. revert total.
  induction Hall as [|x y a b Hxy Hall IH]; intros total; [reflexivity|].
  cbn [truncate_loop]. cbn [length]. rewrite (Forall2_length Hall), Hxy.
  destruct ((total >? maxCharacters)%Z && (1 <? S (length b))%nat).
  - apply IH.
  - simpl. now rewrite (Forall2_length Hall).
Qed.

(** X6: Only the message lengths count: two histories whose messages have the
    same lengths, turn by turn, keep the same number of turns, whatever their
    roles, texts and attachments. *)
Theorem truncateStringList_counts_messages_only
    (a b : list TextBrainPrompt) (maxCharacters : Z) :
  Forall2 (fun x y => String.length (message x) = String.length (message y)) a b ->
  length (truncateStringList a maxCharacters)
  = length (truncateStringList b maxCharacters).
Proof.
  intros Hall. unfold truncateStringList.
  rewrite (Forall2_length Hall).
  destruct (length b <=? 2)%nat; [exact (Forall2_length Hall)|].
  rewrite !totalCharacters_sum.
  replace (message_total a) with (message_total b).
  - apply truncate_loop_same_lengths. exact Hall.
  - clear -Hall. induction Hall as [|x y a b Hxy Hall IH]; simpl; [reflexivity|].
    rewrite Hxy, IH. reflexivity.
Qed.

Lemma truncateStringList_counts_messages_only_witness :
  length (truncateStringList Sample.five_turns 3000)
  = length (truncateStringList
              (map (fun m => Sample.turn "user" (message m) (Some [Sample.cat]))
                   Sample.five_turns) 3000).
Proof.
  apply (truncateStringList_counts_messages_only Sample.five_turns
           (map (fun m => Sample.turn "user" (message m) (Some [Sample.cat]))
                Sample.five_turns) 3000).
  repeat constructor.
Defined.

(** ** Rules for triples *)

Lemma hoare_ret {A : Type} (P : World -> Prop) (a : A)
    (Q : A -> World -> Prop) (E : string -> World -> Prop) :
  (forall w, P w -> Q a w) -> hoare P (ret a) Q E.
Proof. intros H w Hw. exact (H w Hw). Qed.

Lemma hoare_defined {A : Type} (P : World -> Prop) (v : option A)
    (Q : A -> World -> Prop) (E : string -> World -> Prop) :
  (forall a w, v = Some a -> P w -> Q a w) ->
  (forall w, v = None -> P w -> E TypeError w) ->
  hoare P (defined v) Q E.
Proof. intros HQ HE w Hw. destruct v as [a|]; simpl; auto. Qed.

Lemma hoare_lift {A : Type} (P : World -> Prop) (o : Outcome A)
    (Q : A -> World -> Prop) (E : string -> World -> Prop) :
  (forall a w, o = Returned a -> P w -> Q a w) ->
  (forall e w, o = Thrown e -> P w -> E e w) ->
  hoare P (lift o) Q E.
Proof. intros HQ HE w Hw. destruct o as [a|e]; simpl; auto. Qed.

Lemma hoare_emit (P : World -> Prop) (e : Event)
    (Q : unit -> World -> Prop) (E : string -> World -> Prop) :
  (forall w, P w -> Q tt {| service := service w; events := events w ++ [e] |}) ->
  hoare P (emit e) Q E.
Proof. intros H w Hw. exact (H w Hw). Qed.

Lemma hoare_bind {A B : Type} (P : World -> Prop) (m : M A) (k : A -> M B)
    (Q : A -> World -> Prop) (R : B -> World -> Prop)
    (E : string -> World -> Prop) :
  hoare P m Q E -> (forall a, hoare (Q a) (k a) R E) -> hoare P (bind m k) R E.
Proof.
  intros Hm Hk w Hw. unfold bind. specialize (Hm w Hw).
  destruct (m w) as [[a|e] w1]; [exact (Hk a w1 Hm) | exact Hm].
Qed.

Lemma hoare_mapM {A B : Type} (I : World -> Prop) (f : A -> M B) (xs : list A)
    (E : string -> World -> Prop) :
  (forall x, In x xs -> hoare I (f x) (fun _ => I) E) ->
  hoare I (mapM f xs) (fun _ => I) E.
Proof.
  induction xs as [|x xs IH]; intros Hf; cbn [mapM].
  - apply hoare_ret. auto.
  - apply hoare_bind with (Q := fun _ => I); [apply Hf; now left|]. intros y.
    apply hoare_bind with (Q := fun _ => I).
    + apply IH. intros x' Hx'. apply Hf. now right.
    + intros ys. apply hoare_ret. auto.
Qed.

(** ** The client cache across calls *)

Lemma request_clients_app (a b : list Event) :
  request_clients (a ++ b) = request_clients a ++ request_clients b.
Proof. apply flat_map_app. Qed.

Lemma network_calls_app (a b : list Event) :
  network_calls (a ++ b) = network_calls a ++ network_calls b.
Proof. apply filter_app. Qed.

(** From a coherent cache, [getClient] returns a client that holds the key
    of the settings, and leaves the cache coherent. *)
Lemma getClient_coherent (s : ISettings) (w : World) :
  coherent (service w) ->
  exists client w',
    getClient (Some s) w = (Returned client, w') /\
    client_apiKey client = apiKey s /\
    coherent (service w') /\
    currentKey (service w') = apiKey s /\
    (events w' = events w \/ events w' = events w ++ [NewOpenAI (apiKey s)]).
Proof.
  intros Hco. unfold getClient, defined. cbn [bind ret].
  destruct (openAI (service w)) as [cached|] eqn:Hc.
  - destruct (option_string_eqb (currentKey (service w)) (apiKey s)) eqn:He;
      cbn [negb].
    + apply option_string_eqb_spec in He.
      exists cached, w. repeat split; auto.
      rewrite <- He. apply Hco. exact Hc.
    + eexists _, _. split; [reflexivity|]. cbn. repeat split; auto.
      intros c Hcc. now injection Hcc as <-.
  - eexists _, _. split; [reflexivity|]. cbn. repeat split; auto.
    intros c Hcc. now injection Hcc as <-.
Qed.

(** X7: Two calls in a row with the same settings: the second returns the
    client of the first and changes nothing. *)
Theorem getClient_twice (s : ISettings) (key : string) (w : World) :
  apiKey s = Some key ->
  exists client w1,
    getClient (Some s) w = (Returned client, w1) /\
    getClient (Some s) w1 = (Returned client, w1).
Proof.
  intros Hkey. unfold getClient, defined. cbn [bind ret].
  assert (Hrefl : option_string_eqb (apiKey s) (apiKey s) = true)
    by (now apply option_string_eqb_spec).
  destruct (openAI (service w)) as [cached|] eqn:Hc.
  - destruct (option_string_eqb (currentKey (service w)) (apiKey s)) eqn:He;
      cbn [negb].
    + exists cached, w. split; [reflexivity|]. rewrite Hc, He. reflexivity.
    + eexists _, _. split; [reflexivity|]. cbn. rewrite Hrefl. reflexivity.
  - eexists _, _. split; [reflexivity|]. cbn. rewrite Hrefl. reflexivity.
Qed.

Lemma getClient_twice_witness :
  let s := Sample.settings_with (Some Sample.good_key) low in
  exists client w1,
    getClient (Some s) Sample.world0 = (Returned client, w1) /\
    getClient (Some s) w1 = (Returned client, w1).
Proof.
  intros s. exact (getClient_twice s Sample.good_key Sample.world0 eq_refl).
Defined.

Lemma own_key_start (w0 : World) (key : option string) :
  coherent (service w0) -> own_key w0 key w0.
Proof.
  intros H. split; [exact H|]. exists []. split; [now rewrite app_nil_r | constructor].
Qed.

Lemma own_key_emit (w0 : World) (key : option string) (e : Event) (w : World) :
  Forall (fun c => client_apiKey c = key) (request_clients [e]) ->
  own_key w0 key w ->
  own_key w0 key {| service := service w; events := events w ++ [e] |}.
Proof.
  intros He [Hco [l [Hl Hall]]]. split; [exact Hco|].
  exists (l ++ [e]). cbn [events]. split; [now rewrite Hl, app_assoc|].
  rewrite request_clients_app. apply Forall_app. split; assumption.
Qed.

Lemma own_key_getClient (w0 : World) (settings : option ISettings) :
  hoare (own_key w0 (credential settings)) (getClient settings)
    (fun client w =>
       own_key w0 (credential settings) w /\
       client_apiKey client = credential settings)
    (fun _ => own_key w0 (credential settings)).
Proof.
  intros w [Hco [l [Hl Hall]]]. destruct settings as [s|]; [|split; eauto].
  destruct (getClient_coherent s w Hco) as [client [w' [Hrun [Hkey [Hco' [_ Hev]]]]]].
  rewrite Hrun. split; [|exact Hkey]. split; [exact Hco'|].
  destruct Hev as [-> | ->].
  - exists l. split; assumption.
  - exists (l ++ [NewOpenAI (apiKey s)]). split; [now rewrite Hl, app_assoc|].
    rewrite request_clients_app. simpl. now rewrite app_nil_r.
Qed.

Lemma keeps_ret {A : Type} (I : World -> Prop) (a : A) : keeps I (ret a).
Proof. apply hoare_ret. auto. Qed.

Lemma keeps_defined {A : Type} (I : World -> Prop) (v : option A) :
  keeps I (defined v).
Proof. apply hoare_defined; auto. Qed.

Lemma keeps_lift {A : Type} (I : World -> Prop) (o : Outcome A) :
  keeps I (lift o).
Proof. apply hoare_lift; auto. Qed.

Lemma keeps_emit (I : World -> Prop) (ok : Event -> Prop) (e : Event) :
  stable I ok -> ok e -> keeps I (emit e).
Proof. intros Hst He. apply hoare_emit. intros w Hw. exact (Hst w e He Hw). Qed.

Lemma keeps_bind {A B : Type} (I : World -> Prop) (m : M A) (k : A -> M B) :
  keeps I m -> (forall a, keeps I (k a)) -> keeps I (bind m k).
Proof. intros Hm Hk. exact (hoare_bind I m k _ _ _ Hm Hk). Qed.

Lemma keeps_mapM {A B : Type} (I : World -> Prop) (f : A -> M B) (xs : list A) :
  (forall x, keeps I (f x)) -> keeps I (mapM f xs).
Proof. intros Hf. apply hoare_mapM. intros x _. apply Hf. Qed.

Create HintDb keeps.

#[local] Hint Resolve keeps_ret keeps_defined keeps_lift keeps_bind keeps_mapM
  : keeps.

(** Composing the content of a turn only reads files. *)
Lemma keeps_getMessageContent {V : Type} (rt : Runtime V) (I : World -> Prop)
    (ctx_settings : option ISettings) (lastPrompt : option TextBrainPrompt)
    (m : TextBrainPrompt) :
  stable I is_file_read ->
  keeps I (getMessageContent rt ctx_settings lastPrompt m).
Proof.
  intros Hst. unfold getMessageContent.
  destruct (negb (truthy_count (image_count m)) || (role m =? "brain"));
    [auto with keeps|].
  apply keeps_bind; [auto with keeps|]. intros atts.
  apply keeps_bind; [|auto with keeps].
  apply keeps_mapM. intros a. unfold imagePart.
  apply keeps_bind.
  - unfold convertImageAttachmentToBase64.
    apply keeps_bind; [|auto with keeps].
    apply (keeps_emit I is_file_read); [exact Hst | eexists; reflexivity].
  - intros u. apply keeps_bind; [auto with keeps|]. intros last.
    apply keeps_bind; [|auto with keeps].
    destruct (message m =? message last); auto with keeps.
Qed.

Lemma keeps_chatMessages {V : Type} (rt : Runtime V) (I : World -> Prop)
    (ctx_settings : option ISettings) (lastPrompt : option TextBrainPrompt)
    (turns : list TextBrainPrompt) :
  stable I is_file_read ->
  keeps I (mapM (chatMessage rt ctx_settings lastPrompt) turns).
Proof.
  intros Hst. apply keeps_mapM. intros m. unfold chatMessage.
  apply keeps_bind; [now apply keeps_getMessageContent | auto with keeps].
Qed.

Lemma own_key_stable (w0 : World) (key : option string) (ok : Event -> Prop) :
  (forall e, ok e -> request_clients [e] = []) ->
  stable (own_key w0 key) ok.
Proof.
  intros Hok w e He. apply own_key_emit. rewrite (Hok e He). constructor.
Qed.

Lemma own_key_file_reads (w0 : World) (key : option string) :
  stable (own_key w0 key) is_file_read.
Proof. apply own_key_stable. intros e [p ->]. reflexivity. Qed.

(** Getting the client and sending one request with it keeps [own_key]. *)
Lemma own_key_request {B : Type} (w0 : World) (settings : option ISettings)
    (request : OpenAI -> Event) (k : OpenAI -> M B) :
  (forall c, request_clients [request c] = [c]) ->
  (forall c, keeps (own_key w0 (credential settings)) (k c)) ->
  keeps (own_key w0 (credential settings))
    (client <- getClient settings ;; emit (request client) ;; k client).
Proof.
  intros Hreq Hk.
  apply (hoare_bind _ _ _ _ _ _ (own_key_getClient w0 settings)).
  intros client. apply hoare_bind with (Q := fun _ => own_key w0 (credential settings)).
  - apply hoare_emit. intros w [Hw Hkey]. apply own_key_emit; [|exact Hw].
    rewrite Hreq. constructor; [exact Hkey | constructor].
  - intros _. apply Hk.
Qed.

Lemma own_key_sendTextPrompt {V : Type} (rt : Runtime V) (rev : Revision)
    (prompts : list TextBrainPrompt) (context : IBrainPromptContext) (w0 : World) :
  keeps (own_key w0 (credential (settings context)))
    (sendTextPrompt rt rev prompts context).
Proof.
  unfold sendTextPrompt.
  destruct (negb (success rt (validateSettings rt rev (settings context))));
    [auto with keeps|].
  apply keeps_bind.
  { unfold textModel_of. destruct (0 <? _)%nat; auto with keeps. }
  intros chosen. apply keeps_bind.
  { apply keeps_chatMessages. apply own_key_file_reads. }
  intros msgs.
  apply (own_key_request w0 (settings context)
           (fun c => ChatCompletionsCreate c _)); [reflexivity|].
  intros c. auto 10 with keeps.
Qed.

Lemma own_key_transcribeAudio {V : Type} (rt : Runtime V) (rev : Revision)
    (prompt : LocalAudioPrompt) (context : IBrainPromptContext) (w0 : World) :
  keeps (own_key w0 (credential (settings context)))
    (transcribeAudio rt rev prompt context).
Proof.
  unfold transcribeAudio.
  destruct (negb (success rt (validateSettings rt rev (settings context))));
    [auto with keeps|].
  apply keeps_bind.
  { apply (keeps_emit _ (fun e => request_clients [e] = []));
      [now apply own_key_stable | reflexivity]. }
  intros _. apply keeps_bind; [auto with keeps|]. intros s.
  apply (own_key_request w0 (settings context)
           (fun c => AudioTranscriptionsCreate c _)); [reflexivity|].
  intros c. auto 10 with keeps.
Qed.

Lemma own_key_generateImage {V : Type} (rt : Runtime V) (rev : Revision)
    (prompts : list ImageGenerationBrainPrompt) (context : IBrainPromptContext)
    (w0 : World) :
  keeps (own_key w0 (credential (settings context)))
    (generateImage rt rev prompts context).
Proof.
  unfold generateImage.
  destruct (negb (success rt (validateSettings rt rev (settings context))));
    [auto with keeps|].
  apply keeps_bind; [auto with keeps|]. intros prompt.
  apply keeps_bind; [auto with keeps|]. intros s.
  apply (own_key_request w0 (settings context)
           (fun c => ImagesGenerate c _)); [reflexivity|].
  intros c. apply keeps_bind; [auto with keeps|]. intros images.
  apply keeps_bind; [|auto with keeps].
  apply keeps_mapM. intros u. unfold imageAttachment.
  apply keeps_bind; [|auto with keeps].
  destruct (expectedResponseType prompt =? "binary"); [|auto with keeps].
  apply keeps_bind; [|auto with keeps].
  apply (keeps_emit _ (fun e => request_clients [e] = []));
    [now apply own_key_stable | reflexivity].
Qed.

(** X9: From a coherent cache (an empty one is), whatever the settings, the
    prompts and the outcome: each operation leaves the cache coherent, only
    adds to the log, and every request it logs was sent by a client that
    holds the credential of the call's own settings. *)
Theorem operations_use_own_key {V : Type} (rt : Runtime V) (rev : Revision)
    (context : IBrainPromptContext) (w : World) :
  coherent (service w) ->
  (forall prompts,
     own_key w (credential (settings context))
       (snd (sendTextPrompt rt rev prompts context w))) /\
  (forall prompt,
     own_key w (credential (settings context))
       (snd (transcribeAudio rt rev prompt context w))) /\
  (forall prompts,
     own_key w (credential (settings context))
       (snd (generateImage rt rev prompts context w))).
Proof.
  intros Hco.
  pose proof (own_key_start w (credential (settings context)) Hco) as Hstart.
  split; [|split].
  - intros prompts.
    pose proof (own_key_sendTextPrompt rt rev prompts context w w Hstart) as H.
    destruct (sendTextPrompt rt rev prompts context w) as [[r|e] w']; exact H.
  - intros prompt.
    pose proof (own_key_transcribeAudio rt rev prompt context w w Hstart) as H.
    destruct (transcribeAudio rt rev prompt context w) as [[r|e] w']; exact H.
  - intros prompts.
    pose proof (own_key_generateImage rt rev prompts context w w Hstart) as H.
    destruct (generateImage rt rev prompts context w) as [[r|e] w']; exact H.
Qed.

Lemma operations_use_own_key_witness :
  own_key Sample.world0 (Some Sample.good_key)
    (snd (transcribeAudio Sample.runtime rev_4o Sample.audio
            (Sample.context_with (Some Sample.good_key) low) Sample.world0)).
Proof.
  assert (Hco : coherent (service Sample.world0)) by (intros c H; discriminate H).
  destruct (operations_use_own_key Sample.runtime rev_4o
              (Sample.context_with (Some Sample.good_key) low)
              Sample.world0 Hco) as [_ [Haudio _]].
  exact (Haudio Sample.audio).
Defined.

(** ** Calls that pass the settings check *)

Lemma accepted_validateSettings {V : Type} (rt : Runtime V) (rev : Revision)
    (context : IBrainPromptContext) (s : ISettings) :
  accepted rt context s ->
  validateSettings rt rev (settings context)
  = new_BrainSettingsValidationResult rt /\
  success rt (validateSettings rt rev (settings context)) = true.
Proof.
  intros [Hs [[k [Hk Hlen]] Hnew]].
  assert (Hv : validateSettings rt rev (settings context)
               = new_BrainSettingsValidationResult rt).
  { apply (validateSettings_accepted rt rev _ k); [|exact Hlen].
    rewrite Hs. exact Hk. }
  split; [exact Hv | now rewrite Hv].
Qed.

Lemma sample_accepted (detail : ImageDetail) :
  accepted Sample.runtime (Sample.context_with (Some Sample.good_key) detail)
    (Sample.settings_with (Some Sample.good_key) detail).
Proof.
  split; [reflexivity|]. split; [|reflexivity].
  exists Sample.good_key. split; [reflexivity | simpl; lia].
Qed.

(** ** Transcription: the whole call *)

(** X10: A transcription call that passes the check opens the file, gets the
    client and sends one request for that file with the configured model.
    The provider's text comes back verbatim as the result, with no
    attachments; an error thrown by the provider is rethrown as it is. *)
Theorem transcribeAudio_outcome {V : Type} (rt : Runtime V) (rev : Revision)
    (prompt : LocalAudioPrompt) (context : IBrainPromptContext)
    (s : ISettings) (w : World) :
  accepted rt context s ->
  let params := transcriptionParams prompt s in
  file params = audioFilePath prompt /\
  transcription_model params = audioTranscriberModel s /\
  exists client w1,
    getClient (Some s) (logged w (CreateReadStream (audioFilePath prompt)))
    = (Returned client, w1) /\
    transcribeAudio rt rev prompt context w
    = (match audio_transcriptions_create rt client params with
       | Returned t =>
           Returned {| result := text t;
                       response_attachments := None;
                       validationResult := new_BrainSettingsValidationResult rt |}
       | Thrown e => Thrown e
       end,
       logged w1 (AudioTranscriptionsCreate client params)).
Proof.
  intros Hacc params.
  destruct (accepted_validateSettings rt rev context s Hacc) as [Hv Hok].
  destruct Hacc as [Hs _].
  destruct (getClient_returns s (logged w (CreateReadStream (audioFilePath prompt))))
    as [client [w1 [Hrun _]]].
  split; [reflexivity|]. split; [reflexivity|].
  exists client, w1. split; [exact Hrun|].
  unfold transcribeAudio. rewrite Hok. cbn [negb]. rewrite Hv, Hs.
  run. cbn [defined]. run. fold (logged w (CreateReadStream (audioFilePath prompt))).
  rewrite (bind_returned _ _ _ _ _ Hrun). run. fold params.
  unfold bind, lift, ret, logged.
  destruct (audio_transcriptions_create rt client params); reflexivity.
Qed.

Lemma transcribeAudio_outcome_witness :
  fst (transcribeAudio Sample.runtime rev_preview Sample.audio
         (Sample.context_with (Some Sample.good_key) low) Sample.world0)
  = Returned {| result := "hello world";
                response_attachments := None;
                validationResult := [] |}.
Proof.
  destruct (transcribeAudio_outcome Sample.runtime rev_preview Sample.audio
              (Sample.context_with (Some Sample.good_key) low)
              (Sample.settings_with (Some Sample.good_key) low)
              Sample.world0 (sample_accepted low))
    as [_ [_ [client [w1 [_ Hrun]]]]].
  rewrite Hrun. reflexivity.
Defined.

(** X11: The language of a transcription request is never missing and never
    empty, whatever the prompt and the settings hold. *)
Theorem transcriptionParams_language_nonempty
    (prompt : LocalAudioPrompt) (s : ISettings) :
  exists l, language (transcriptionParams prompt s) = Some l /\ l <> "".
Proof.
  unfold transcriptionParams. cbn [language]. unfold Js.or, Js.truthy.
  destruct (prompt_language prompt) as [p|].
  - destruct (p =? "") eqn:Hp; cbn [negb].
    + destruct (audioTranscriberDefaultLanguage s) as [d|].
      * destruct (d =? "") eqn:Hd; cbn [negb].
        -- exists "en". split; [reflexivity | discriminate].
        -- exists d. split; [reflexivity | now apply String.eqb_neq].
      * exists "en". split; [reflexivity | discriminate].
    + exists p. split; [reflexivity | now apply String.eqb_neq].
  - destruct (audioTranscriberDefaultLanguage s) as [d|].
    + destruct (d =? "") eqn:Hd; cbn [negb].
      * exists "en". split; [reflexivity | discriminate].
      * exists d. split; [reflexivity | now apply String.eqb_neq].
    + exists "en". split; [reflexivity | discriminate].
Qed.

(** ** Image generation: prompts, failures and response types *)

Lemma last_item_snoc {A : Type} (xs : list A) (x : A) :
  Js.last_item (xs ++ [x]) = Some x.
Proof.
  unfold Js.last_item. rewrite length_app. simpl.
  replace (length xs + 1 - 1)%nat with (length xs) by lia.
  rewrite nth_error_app2, Nat.sub_diag; [reflexivity | lia].
Qed.

(** X12: Only the last prompt of the list is used: the prompts before it change
    nothing in what the call does or returns. *)
Theorem generateImage_last_prompt_only {V : Type} (rt : Runtime V)
    (rev : Revision) (earlier : list ImageGenerationBrainPrompt)
    (prompt : ImageGenerationBrainPrompt) (context : IBrainPromptContext)
    (w : World) :
  generateImage rt rev (earlier ++ [prompt]) context w
  = generateImage rt rev [prompt] context w.
Proof.
  unfold generateImage. rewrite last_item_snoc. reflexivity.
Qed.

(** X13: With settings that pass the check and no prompt at all, the call throws
    a TypeError before it builds a client or sends anything. *)
Theorem generateImage_no_prompt {V : Type} (rt : Runtime V) (rev : Revision)
    (context : IBrainPromptContext) (s : ISettings) (w : World) :
  accepted rt context s ->
  generateImage rt rev [] context w = (Thrown TypeError, w).
Proof.
  intros Hacc.
  destruct (accepted_validateSettings rt rev context s Hacc) as [_ Hok].
  unfold generateImage. rewrite Hok. reflexivity.
Qed.

Lemma generateImage_no_prompt_witness :
  generateImage Sample.runtime rev_4o []
    (Sample.context_with (Some Sample.good_key) low) Sample.world0
  = (Thrown TypeError, Sample.world0).
Proof.
  exact (generateImage_no_prompt Sample.runtime rev_4o
           (Sample.context_with (Some Sample.good_key) low)
           (Sample.settings_with (Some Sample.good_key) low)
           Sample.world0 (sample_accepted low)).
Defined.

(** The run of an accepted call, with the validation result made explicit. *)
Lemma generateImage_accepted {V : Type} (rt : Runtime V) (rev : Revision)
    (prompts : list ImageGenerationBrainPrompt)
    (prompt : ImageGenerationBrainPrompt)
    (context : IBrainPromptContext) (s : ISettings) (w : World) :
  Js.last_item prompts = Some prompt ->
  accepted rt context s ->
  exists client w1,
    getClient (Some s) w = (Returned client, w1) /\
    let format :=
      if expectedResponseType prompt =? "base64" then "b64_json" else "url" in
    let params := imageGenerateParams rt rev prompt s (senderId context) format in
    generateImage rt rev prompts context w
    = (result <- lift (images_generate rt client params) ;;
       attachments <-
         mapM (imageAttachment rt prompt)
           (map (fun d => if format =? "url" then url d else b64_json d)
                (data result)) ;;
       ret {| result := "";
              response_attachments := Some attachments;
              validationResult := new_BrainSettingsValidationResult rt |})
        (logged w1 (ImagesGenerate client params)).
Proof.
  intros Hlast Hacc.
  destruct (accepted_validateSettings rt rev context s Hacc) as [Hv Hok].
  destruct Hacc as [Hs _].
  destruct (generateImage_run rt rev prompts prompt context s w Hlast Hs Hok)
    as [client [w1 [Hclient [_ Hrun]]]].
  exists client, w1. split; [exact Hclient|].
  cbv zeta in *. rewrite Hrun, Hv. reflexivity.
Qed.

Lemma bind_lift_throws {A B : Type} (o : Outcome A) (e : string) (k : A -> M B)
    (w : World) :
  o = Thrown e -> bind (lift o) k w = (Thrown e, w).
Proof. intros ->. reflexivity. Qed.

Lemma mapM_imageAttachment_fetch_fails {V : Type} (rt : Runtime V)
    (prompt : ImageGenerationBrainPrompt)
    (fetched : list (option string)) (buffers : list Buffer)
    (u : option string) (later : list (option string)) (e : string) (w : World) :
  expectedResponseType prompt = "binary" ->
  Forall2 (fun u b => fetch_buffer rt u = Returned b) fetched buffers ->
  fetch_buffer rt u = Thrown e ->
  mapM (imageAttachment rt prompt) (fetched ++ u :: later) w
  = (Thrown e,
     {| service := service w;
        events := events w ++ map Fetch (fetched ++ [u]) |}).
Proof.
  intros Hb Hall Hu. revert w.
  induction Hall as [|x b fetched buffers Hx Hall IH]; intros w.
  - cbn [app mapM map]. unfold imageAttachment at 1.
    rewrite Hb, String.eqb_refl. run.
    rewrite (bind_lift_throws _ _ _ _ Hu). cbn [service events map app].
    reflexivity.
  - cbn [app mapM map]. unfold imageAttachment at 1.
    rewrite Hb, String.eqb_refl. run.
    rewrite (bind_lift_returned _ _ _ _ Hx). run.
    rewrite (bind_thrown _ _ _ _ _ (IH _)). cbn [service events].
    rewrite <- app_assoc. reflexivity.
Qed.

(** X14: Failures of an accepted image call.  An error thrown by the provider is
    rethrown, and nothing is fetched.  For a 'binary' prompt, when fetching
    one of the returned URLs throws, the call throws that error instead of
    returning the images fetched so far, and the URLs after it are not
    fetched. *)
Theorem generateImage_failures {V : Type} (rt : Runtime V) (rev : Revision)
    (prompts : list ImageGenerationBrainPrompt)
    (prompt : ImageGenerationBrainPrompt)
    (context : IBrainPromptContext) (s : ISettings) (w : World) :
  Js.last_item prompts = Some prompt ->
  accepted rt context s ->
  let params :=
    imageGenerateParams rt rev prompt s (senderId context)
      (if expectedResponseType prompt =? "base64" then "b64_json" else "url") in
  exists client w1,
    getClient (Some s) w = (Returned client, w1) /\
    (forall e,
       images_generate rt client params = Thrown e ->
       generateImage rt rev prompts context w
       = (Thrown e, logged w1 (ImagesGenerate client params))) /\
    (forall fetched buffers failing later e,
       expectedResponseType prompt = "binary" ->
       images_generate rt client params
       = Returned {| data := fetched ++ failing :: later |} ->
       Forall2 (fun d b => fetch_buffer rt (url d) = Returned b) fetched buffers ->
       fetch_buffer rt (url failing) = Thrown e ->
       generateImage rt rev prompts context w
       = (Thrown e,
          {| service := service w1;
             events := events w1 ++ [ImagesGenerate client params]
                       ++ map (fun d => Fetch (url d)) (fetched ++ [failing]) |})).
Proof.
  intros Hlast Hacc params.
  destruct (generateImage_accepted rt rev prompts prompt context s w Hlast Hacc)
    as [client [w1 [Hclient Hrun]]].
  cbv zeta in Hrun. fold params in Hrun. exists client, w1.
  split; [exact Hclient|]. split.
  - intros e He. rewrite Hrun, (bind_lift_throws _ _ _ _ He). reflexivity.
  - intros fetched buffers failing later e Hbin Himages Hfetched Hfail.
    rewrite Hrun, (bind_lift_returned _ _ _ _ Himages). cbn [data].
    rewrite Hbin. cbn [String.eqb Ascii.eqb Bool.eqb]. cbv iota.
    rewrite map_app. cbn [map].
    assert (Hurls : Forall2 (fun u b => fetch_buffer rt u = Returned b)
                      (map (fun d => url d) fetched) buffers).
    { clear -Hfetched. induction Hfetched; constructor; assumption. }
    rewrite (bind_thrown _ _ _ _ _
               (mapM_imageAttachment_fetch_fails rt prompt _ buffers (url failing)
                  _ e _ Hbin Hurls Hfail)).
    unfold logged. cbn [service events].
    rewrite <- app_assoc, !map_app, !map_map. reflexivity.
Qed.

(** Offline, a 'binary' prompt: the provider answers with a URL, fetching it
    throws, and so does the call. *)
Lemma generateImage_failures_witness :
  fst (generateImage Sample.offline rev_preview [Sample.image_prompt "binary"]
         (Sample.context_with (Some Sample.good_key) low) Sample.world0)
  = Thrown "ENETUNREACH".
Proof.
  destruct (generateImage_failures Sample.offline rev_preview
              [Sample.image_prompt "binary"] (Sample.image_prompt "binary")
              (Sample.context_with (Some Sample.good_key) low)
              (Sample.settings_with (Some Sample.good_key) low)
              Sample.world0 eq_refl)
    as [client [w1 [_ [_ Hfetch]]]].
  - split; [reflexivity|]. split; [|reflexivity].
    exists Sample.good_key. split; [reflexivity | simpl; lia].
  - rewrite (Hfetch [] [] {| url := Some Sample.generated_url; b64_json := None |}
               [] "ENETUNREACH" eq_refl eq_refl (Forall2_nil _) eq_refl).
    reflexivity.
Defined.

(** X15: Every response type other than 'binary' is answered without fetching:
    the request asks for "b64_json" when the type is 'base64' and for "url"
    otherwise (an unknown type is treated as 'url'), each attachment carries
    the matching field of the provider's answer, and the request is the only
    thing the call adds to the log after getting the client. *)
Theorem generateImage_string_responses {V : Type} (rt : Runtime V)
    (rev : Revision) (prompts : list ImageGenerationBrainPrompt)
    (prompt : ImageGenerationBrainPrompt)
    (context : IBrainPromptContext) (s : ISettings) (w : World) :
  Js.last_item prompts = Some prompt ->
  accepted rt context s ->
  expectedResponseType prompt <> "binary" ->
  let base64 := expectedResponseType prompt =? "base64" in
  let params :=
    imageGenerateParams rt rev prompt s (senderId context)
      (if base64 then "b64_json" else "url") in
  response_format params = (if base64 then "b64_json" else "url") /\
  exists client w1,
    getClient (Some s) w = (Returned client, w1) /\
    forall images,
      images_generate rt client params = Returned images ->
      generateImage rt rev prompts context w
      = (Returned
           {| result := "";
              response_attachments :=
                Some (map (fun d => png (file_string
                                           (if base64 then b64_json d else url d)))
                          (data images));
              validationResult := new_BrainSettingsValidationResult rt |},
         logged w1 (ImagesGenerate client params)).
Proof.
  intros Hlast Hacc Hnb base64 params.
  split; [unfold params, imageGenerateParams; destruct rev; reflexivity|].
  destruct (generateImage_accepted rt rev prompts prompt context s w Hlast Hacc)
    as [client [w1 [Hclient Hrun]]].
  cbv zeta in Hrun. fold base64 in Hrun. fold params in Hrun.
  exists client, w1. split; [exact Hclient|].
  intros images Himages.
  rewrite Hrun, (bind_lift_returned _ _ _ _ Himages).
  rewrite (bind_returned _ _ _ _ _
             (mapM_imageAttachment_plain rt prompt _ _ Hnb)).
  unfold ret. rewrite map_map. destruct base64; reflexivity.
Qed.

(** A prompt that names no known response type gets the provider's URLs. *)
Lemma generateImage_string_responses_witness :
  fst (generateImage Sample.runtime rev_4o [Sample.image_prompt "jpeg"]
         (Sample.context_with (Some Sample.good_key) low) Sample.world0)
  = Returned {| result := "";
                response_attachments :=
                  Some [ png (file_string (Some Sample.generated_url)) ];
                validationResult := [] |}.
Proof.
  destruct (generateImage_string_responses Sample.runtime rev_4o
              [Sample.image_prompt "jpeg"] (Sample.image_prompt "jpeg")
              (Sample.context_with (Some Sample.good_key) low)
              (Sample.settings_with (Some Sample.good_key) low)
              Sample.world0 eq_refl)
    as [_ [client [w1 [_ Hrun]]]].
  - split; [reflexivity|]. split; [|reflexivity].
    exists Sample.good_key. split; [reflexivity | simpl; lia].
  - discriminate.
  - rewrite (Hrun {| data := [ {| url := Some Sample.generated_url;
                                  b64_json := None |} ] |} eq_refl).
    reflexivity.
Defined.

(** ** The text call: requests, answers and failures *)

(** The model that the request of a windowed history carries. *)
Lemma textModel_of_returns (rev : Revision) (s : ISettings) (hasImage : nat)
    (w : World) :
  textModel_of rev (Some s) hasImage w
  = (Returned (if (0 <? hasImage)%nat
               then Js.Str (vision_model rev)
               else Js.get (textModels rev) (textModel s)), w).
Proof.
  unfold textModel_of. destruct (0 <? hasImage)%nat; [rewrite vision_entry|];
    reflexivity.
Qed.

(** The run of an accepted text call, from composing the messages on. *)
Lemma sendTextPrompt_accepted {V : Type} (rt : Runtime V) (rev : Revision)
    (prompts : list TextBrainPrompt) (context : IBrainPromptContext)
    (s : ISettings) (w : World) :
  accepted rt context s ->
  let budget := historyBudget (Some s) in
  let turns := truncateStringList prompts budget in
  let chosen :=
    if (0 <? hasImageAttached turns)%nat
    then Js.Str (vision_model rev)
    else Js.get (textModels rev) (textModel s) in
  sendTextPrompt rt rev prompts context w
  = (msgs <- mapM (chatMessage rt (Some s) (Js.last_item turns)) turns ;;
     client <- getClient (Some s) ;;
     emit (ChatCompletionsCreate client
             {| model := chosen; messages := msgs; max_tokens := budget |}) ;;
     response <- lift (chat_completions_create rt client
                         {| model := chosen; messages := msgs;
                            max_tokens := budget |}) ;;
     first <- defined (nth_error (choices response) 0) ;;
     c <- defined first ;;
     ret {| result := trim rt c;
            response_attachments := None;
            validationResult := new_BrainSettingsValidationResult rt |}) w.
Proof.
  intros Hacc budget turns chosen.
  destruct (accepted_validateSettings rt rev context s Hacc) as [Hv Hok].
  destruct Hacc as [Hs _].
  unfold sendTextPrompt. rewrite Hok. cbn [negb]. rewrite Hv, Hs.
  fold budget. fold turns.
  rewrite (bind_returned _ _ _ _ _
             (textModel_of_returns rev s (hasImageAttached turns) w)).
  reflexivity.
Qed.

Lemma chatMessage_plain {V : Type} (rt : Runtime V)
    (ctx_settings : option ISettings) (lastPrompt : option TextBrainPrompt)
    (m : TextBrainPrompt) (w : World) :
  image_attachments m = [] \/ role m = "brain" ->
  chatMessage rt ctx_settings lastPrompt m w = (Returned (plain_message m), w).
Proof.
  intros Hplain. unfold chatMessage, getMessageContent.
  replace (negb (truthy_count (image_count m)) || (role m =? "brain"))
    with true; [reflexivity|].
  symmetry. apply orb_true_iff. destruct Hplain as [Hno | Hbrain].
  - left. apply negb_true_iff, truthy_count_no_images. exact Hno.
  - right. rewrite Hbrain. reflexivity.
Qed.

Lemma mapM_chatMessage_plain {V : Type} (rt : Runtime V)
    (ctx_settings : option ISettings) (lastPrompt : option TextBrainPrompt)
    (turns : list TextBrainPrompt) (w : World) :
  Forall (fun m => image_attachments m = [] \/ role m = "brain") turns ->
  mapM (chatMessage rt ctx_settings lastPrompt) turns w
  = (Returned (map plain_message turns), w).
Proof.
  induction 1 as [|m turns Hm Hall IH]; [reflexivity|].
  cbn [mapM map].
  rewrite (bind_returned _ _ _ _ _ (chatMessage_plain rt _ _ m w Hm)).
  rewrite (bind_returned _ _ _ _ _ IH). reflexivity.
Qed.

(** One message per turn, in order, with the role renamed. *)
Lemma mapM_chatMessage_roles {V : Type} (rt : Runtime V)
    (ctx_settings : option ISettings) (lastPrompt : option TextBrainPrompt)
    (turns : list TextBrainPrompt) (w w' : World) (msgs : list ChatMessage) :
  mapM (chatMessage rt ctx_settings lastPrompt) turns w = (Returned msgs, w') ->
  map chat_role msgs = map (fun m => provider_role (role m)) turns.
Proof.
  revert w w' msgs. induction turns as [|m turns IH]; intros w w' msgs.
  - cbn [mapM]. unfold ret. intros H. injection H as <- _. reflexivity.
  - cbn [mapM]. unfold bind at 1. unfold chatMessage at 1. unfold bind at 1.
    destruct (getMessageContent rt ctx_settings lastPrompt m w) as [[c|e] w1];
      [|discriminate].
    unfold ret at 1. unfold bind at 1.
    destruct (mapM _ turns w1) as [[rest|e] w2] eqn:Hrest; [|discriminate].
    unfold ret. intros H. injection H as <- _.
    cbn [map chat_role]. rewrite (IH _ _ _ Hrest). reflexivity.
Qed.

(** X17: The one chat request of an accepted text call.  The call logs at most
    one chat request.  It carries the vision model when a windowed turn has an
    image attachment and the model of the configured label otherwise; its
    [max_tokens] is the character budget of the history (3000 when the
    setting is absent); and it has one message per windowed turn, in order,
    with role "brain" renamed "assistant" and every other role unchanged. *)
Theorem sendTextPrompt_request_shape {V : Type} (rt : Runtime V) (rev : Revision)
    (prompts : list TextBrainPrompt) (context : IBrainPromptContext)
    (s : ISettings) (w : World) :
  accepted rt context s ->
  let budget :=
    match maxCharactersHistorySize s with Some k => k | None => 3000%Z end in
  let turns := truncateStringList prompts budget in
  exists sent,
    chat_requests (events (snd (sendTextPrompt rt rev prompts context w)))
    = chat_requests (events w) ++ sent /\
    (length sent <= 1)%nat /\
    forall params, In params sent ->
      model params
      = (if (0 <? hasImageAttached turns)%nat
         then Js.Str (vision_model rev)
         else Js.get (textModels rev) (textModel s)) /\
      max_tokens params = budget /\
      map chat_role (messages params)
      = map (fun m => provider_role (role m)) turns.
Proof.
  intros Hacc budget turns.
  destruct (accepted_validateSettings rt rev context s Hacc) as [_ Hok].
  pose proof (sendTextPrompt_request rt rev prompts context s w
                (proj1 Hacc) Hok) as Hreq.
  cbv zeta in Hreq. change (historyBudget (Some s)) with budget in Hreq.
  fold turns in Hreq.
  destruct (mapM (chatMessage rt (Some s) (Js.last_item turns)) turns w)
    as [[msgs|e] w1] eqn:Hmsgs; cbn [fst] in Hreq.
  - eexists. split; [exact Hreq|]. split; [simpl; lia|].
    intros params [<- | []]. cbn [model max_tokens messages].
    split; [reflexivity|]. split; [reflexivity|].
    exact (mapM_chatMessage_roles _ _ _ _ _ _ _ Hmsgs).
  - exists []. rewrite app_nil_r. split; [exact Hreq|]. split; [simpl; lia|].
    intros params [].
Qed.

(** The repeated question: one request, for the vision model, with two user
    messages and [max_tokens] 3000. *)
Lemma sendTextPrompt_request_shape_witness :
  exists params,
    chat_requests
      (events (snd (sendTextPrompt Sample.runtime rev_4o Sample.repeated_question
                      (Sample.context_with (Some Sample.good_key) low)
                      Sample.world0)))
    = [params] /\
    model params = Js.Str "gpt-4o-mini" /\
    max_tokens params = 3000%Z /\
    map chat_role (messages params) = ["user"; "user"].
Proof.
  destruct (sendTextPrompt_request_shape Sample.runtime rev_4o
              Sample.repeated_question
              (Sample.context_with (Some Sample.good_key) low)
              (Sample.settings_with (Some Sample.good_key) low)
              Sample.world0 (sample_accepted low))
    as [sent [Hsent [_ Hshape]]].
  destruct sent as [|params sent].
  - vm_compute in Hsent. discriminate Hsent.
  - assert (Hnil : sent = []).
    { vm_compute in Hsent. injection Hsent as _ Hsent. now rewrite Hsent. }
    subst sent. exists params. split; [exact Hsent|].
    exact (Hshape params (or_introl eq_refl)).
Defined.

(** The run of an accepted call whose windowed turns are all plain. *)
Lemma sendTextPrompt_plain_run {V : Type} (rt : Runtime V) (rev : Revision)
    (prompts : list TextBrainPrompt) (context : IBrainPromptContext)
    (s : ISettings) (w : World) :
  accepted rt context s ->
  let budget :=
    match maxCharactersHistorySize s with Some k => k | None => 3000%Z end in
  let turns := truncateStringList prompts budget in
  Forall (fun m => image_attachments m = [] \/ role m = "brain") turns ->
  let params :=
    {| model := if (0 <? hasImageAttached turns)%nat
                then Js.Str (vision_model rev)
                else Js.get (textModels rev) (textModel s);
       messages := map plain_message turns;
       max_tokens := budget |} in
  exists client w1,
    getClient (Some s) w = (Returned client, w1) /\
    sendTextPrompt rt rev prompts context w
    = (match chat_completions_create rt client params with
       | Thrown e => Thrown e
       | Returned response =>
           match choices response with
           | Some c :: _ =>
               Returned {| result := trim rt c;
                           response_attachments := None;
                           validationResult :=
                             new_BrainSettingsValidationResult rt |}
           | None :: _ | [] => Thrown TypeError
           end
       end,
       logged w1 (ChatCompletionsCreate client params)).
Proof.
  intros Hacc budget turns Hplain params.
  rewrite (sendTextPrompt_accepted rt rev prompts context s w Hacc).
  cbv zeta. change (historyBudget (Some s)) with budget. fold turns.
  rewrite (bind_returned _ _ _ _ _
             (mapM_chatMessage_plain rt (Some s) (Js.last_item turns) turns w
                Hplain)).
  destruct (getClient_returns s w) as [client [w1 [Hclient _]]].
  exists client, w1. split; [exact Hclient|].
  rewrite (bind_returned _ _ _ _ _ Hclient). run. fold params.
  fold (logged w1 (ChatCompletionsCreate client params)).
  unfold bind, lift.
  destruct (chat_completions_create rt client params) as [response|e];
    [|reflexivity].
  destruct (choices response) as [|[c|] rest]; reflexivity.
Qed.


(** X18: A history whose windowed turns are all sent as plain text (no image
    attachment, or role "brain"): the call reads no file, sends one request
    with one plain message per turn, and answers with the trimmed content of
    the provider's first choice.  An error of the provider is rethrown; an
    answer with no choice, or a first choice with no content, makes the call
    throw a TypeError after the request was sent. *)
Theorem sendTextPrompt_text_only {V : Type} (rt : Runtime V) (rev : Revision)
    (prompts : list TextBrainPrompt) (context : IBrainPromptContext)
    (s : ISettings) (w : World) :
  accepted rt context s ->
  let budget :=
    match maxCharactersHistorySize s with Some k => k | None => 3000%Z end in
  let turns := truncateStringList prompts budget in
  Forall (fun m => image_attachments m = [] \/ role m = "brain") turns ->
  let params :=
    {| model := if (0 <? hasImageAttached turns)%nat
                then Js.Str (vision_model rev)
                else Js.get (textModels rev) (textModel s);
       messages := map plain_message turns;
       max_tokens := budget |} in
  exists client w1,
    getClient (Some s) w = (Returned client, w1) /\
    sendTextPrompt rt rev prompts context w
    = (match chat_completions_create rt client params with
       | Thrown e => Thrown e
       | Returned response =>
           match choices response with
           | Some c :: _ =>
               Returned {| result := trim rt c;
                           response_attachments := None;
                           validationResult :=
                             new_BrainSettingsValidationResult rt |}
           | None :: _ | [] => Thrown TypeError
           end
       end,
       logged w1 (ChatCompletionsCreate client params)).
Proof. exact (sendTextPrompt_plain_run rt rev prompts context s w). Qed.

(** An empty conversation is sent all the same: one request with no
    message, answered with the trimmed first choice. *)
Lemma sendTextPrompt_text_only_witness :
  sendTextPrompt Sample.runtime rev_preview []
    (Sample.context_with (Some Sample.good_key) low) Sample.world0
  = (Returned {| result := "Hello!";
                 response_attachments := None;
                 validationResult := [] |},
     {| service :=
          {| openAI := Some {| client_apiKey := Some Sample.good_key;
                               client_serial := 0 |};
             currentKey := Some Sample.good_key |};
        events :=
          [ NewOpenAI (Some Sample.good_key);
            ChatCompletionsCreate
              {| client_apiKey := Some Sample.good_key; client_serial := 0 |}
              {| model := Js.Str "gpt-4-1106-preview";
                 messages := [];
                 max_tokens := 3000 |} ] |}).
Proof.
  destruct (sendTextPrompt_text_only Sample.runtime rev_preview []
              (Sample.context_with (Some Sample.good_key) low)
              (Sample.settings_with (Some Sample.good_key) low)
              Sample.world0 (sample_accepted low) (Forall_nil _))
    as [client [w1 [Hclient Hrun]]].
  rewrite Hrun. vm_compute in Hclient. injection Hclient as <- <-.
  reflexivity.
Defined.

(** ** Image turns: what is inlined, and unreadable files *)

(** X20: A turn that is sent with its images (some attachment is an image, the
    role is not "brain"), when every attachment's file can be read: each
    attachment, image or not, is read once, in order, and becomes an image
    part holding "data:", its own mimeType, ";base64," and its bytes in
    base64.  All parts of the turn get the same fidelity: the configured one
    when the text of the turn equals the text of the last turn, 'low'
    otherwise. *)
Theorem getMessageContent_inlines_attachments {V : Type} (rt : Runtime V)
    (s : ISettings) (lastTurn m : TextBrainPrompt)
    (atts : list FileAttachment) (buffers : list Buffer) (w : World) :
  attachments m = Some atts ->
  image_attachments m <> [] ->
  role m <> "brain" ->
  Forall2 (fun a b => readFileSync rt (path a) = Returned b) atts buffers ->
  getMessageContent rt (Some s) (Some lastTurn) m w
  = (Returned
       (content_parts
          (text_part (message m)
           :: map (fun ab =>
                     image_url_part
                       ("data:" ++ mimeType (fst ab) ++ ";base64,"
                        ++ toString_base64 rt (snd ab))%string
                       (if message m =? message lastTurn
                        then imageDetail s else low))
                  (combine atts buffers))),
     {| service := service w;
        events := events w ++ map (fun a => ReadFileSync (path a)) atts |}).
Proof.
  intros Hatts Himg Hrole Hread. unfold getMessageContent.
  apply truthy_count_images in Himg. rewrite Himg.
  rewrite (string_eqb_false _ _ Hrole). cbn [negb orb].
  rewrite Hatts. cbn [defined]. run.
  rewrite (bind_returned _ _ _ _ _
             (mapM_imagePart_readable rt s lastTurn m atts buffers w Hread)).
  reflexivity.
Qed.

(** A turn with two images whose text differs from the last turn's text:
    both files are read, both parts are 'low' though 'high' is configured. *)
Lemma getMessageContent_inlines_attachments_witness :
  getMessageContent Sample.runtime
    (Some (Sample.settings_with (Some Sample.good_key) high))
    (Some (Sample.turn "user" "and this one?" None))
    (Sample.turn "user" "two pets" (Some [Sample.cat; Sample.dog]))
    Sample.world0
  = (Returned
       (content_parts
          [ text_part "two pets";
            image_url_part "data:image/png;base64,iVBORw==" low;
            image_url_part "data:image/png;base64,iVBORw0=" low ]),
     {| service := service Sample.world0;
        events := [ReadFileSync "/tmp/cat.png"; ReadFileSync "/tmp/dog.png"] |}).
Proof.
  apply (getMessageContent_inlines_attachments Sample.runtime
           (Sample.settings_with (Some Sample.good_key) high)
           (Sample.turn "user" "and this one?" None)
           (Sample.turn "user" "two pets" (Some [Sample.cat; Sample.dog]))
           [Sample.cat; Sample.dog] [Sample.png_bytes; Sample.other_bytes]
           Sample.world0 eq_refl).
  - discriminate.
  - discriminate.
  - repeat constructor.
Defined.

Lemma local_step_refl (w : World) : local_step w w.
Proof. split; [reflexivity|]. exists []. split; [now rewrite app_nil_r | reflexivity]. Qed.

Lemma local_step_file_reads (w0 : World) : stable (local_step w0) is_file_read.
Proof.
  intros w e [p ->] [Hsvc [l [Hl Hnet]]]. split; [exact Hsvc|].
  exists (l ++ [ReadFileSync p]). cbn [events].
  split; [now rewrite Hl, app_assoc|].
  rewrite network_calls_app, Hnet. reflexivity.
Qed.

Lemma convertImageAttachmentToBase64_unreadable {V : Type} (rt : Runtime V)
    (a : FileAttachment) (e : string) (w : World) :
  readFileSync rt (path a) = Thrown e ->
  convertImageAttachmentToBase64 rt a w
  = (Thrown e, logged w (ReadFileSync (path a))).
Proof.
  intros H. unfold convertImageAttachmentToBase64. run.
  rewrite (bind_lift_throws _ _ _ _ H). reflexivity.
Qed.

Lemma mapM_throws_at {A B : Type} (f : A -> M B) (xs : list A) (x : A) (w : World) :
  In x xs ->
  (forall w0, exists e w1, f x w0 = (Thrown e, w1)) ->
  exists e w1, mapM f xs w = (Thrown e, w1).
Proof.
  intros Hin Hx. revert w. induction xs as [|y xs IH]; intros w; [contradiction|].
  cbn [mapM]. unfold bind at 1.
  destruct (f y w) as [[b|e] w1] eqn:Hy.
  - destruct Hin as [-> | Hin].
    + destruct (Hx w) as [e [w2 H]]. congruence.
    + destruct (IH Hin w1) as [e [w2 H]].
      rewrite (bind_thrown _ _ _ _ _ H). eauto.
  - eauto.
Qed.

Lemma chatMessage_unreadable {V : Type} (rt : Runtime V)
    (ctx_settings : option ISettings) (lastPrompt : option TextBrainPrompt)
    (m : TextBrainPrompt) (atts : list FileAttachment) (a : FileAttachment)
    (e : string) (w : World) :
  attachments m = Some atts ->
  image_attachments m <> [] ->
  role m <> "brain" ->
  In a atts ->
  readFileSync rt (path a) = Thrown e ->
  exists e' w', chatMessage rt ctx_settings lastPrompt m w = (Thrown e', w').
Proof.
  intros Hatts Himg Hrole Hin Hread. unfold chatMessage, getMessageContent.
  apply truthy_count_images in Himg. rewrite Himg.
  rewrite (string_eqb_false _ _ Hrole). cbn [negb orb].
  rewrite Hatts. cbn [defined]. run.
  destruct (mapM_throws_at (imagePart rt ctx_settings lastPrompt m) atts a w Hin)
    as [e' [w' Hthrow]].
  - intros w0. unfold imagePart.
    rewrite (bind_thrown _ _ _ _ _
               (convertImageAttachmentToBase64_unreadable rt a e w0 Hread)).
    eauto.
  - rewrite (bind_thrown _ _ _ _ _ Hthrow). eauto.
Qed.

(** X21: When a file of a turn that is sent with its images cannot be read, an
    accepted text call throws, and it does so before touching the network or
    the client cache: the service object is as before and the log has gained
    no network call. *)
Theorem sendTextPrompt_unreadable_attachment {V : Type} (rt : Runtime V)
    (rev : Revision) (prompts : list TextBrainPrompt)
    (context : IBrainPromptContext) (s : ISettings) (w : World)
    (m : TextBrainPrompt) (atts : list FileAttachment) (a : FileAttachment)
    (e : string) :
  accepted rt context s ->
  In m (truncateStringList prompts
          match maxCharactersHistorySize s with Some k => k | None => 3000%Z end) ->
  attachments m = Some atts ->
  image_attachments m <> [] ->
  role m <> "brain" ->
  In a atts ->
  readFileSync rt (path a) = Thrown e ->
  exists e' w',
    sendTextPrompt rt rev prompts context w = (Thrown e', w') /\
    local_step w w'.
Proof.
  intros Hacc Hin Hatts Himg Hrole Ha Hread.
  rewrite (sendTextPrompt_accepted rt rev prompts context s w Hacc).
  cbv zeta. change (historyBudget (Some s))
    with (match maxCharactersHistorySize s with Some k => k | None => 3000%Z end).
  set (turns := truncateStringList prompts _) in *.
  destruct (mapM_throws_at (chatMessage rt (Some s) (Js.last_item turns)) turns m w Hin)
    as [e' [w' Hthrow]].
  - intros w0.
    exact (chatMessage_unreadable rt _ _ m atts a e w0 Hatts Himg Hrole Ha Hread).
  - exists e', w'. rewrite (bind_thrown _ _ _ _ _ Hthrow). split; [reflexivity|].
    pose proof (keeps_chatMessages rt (local_step w) (Some s) (Js.last_item turns)
                  turns (local_step_file_reads w) w (local_step_refl w)) as Hkeep.
    rewrite Hthrow in Hkeep. exact Hkeep.
Qed.

(** A question about an image whose file is gone: the call throws, and the
    world differs only by the attempted read. *)
Lemma sendTextPrompt_unreadable_attachment_witness :
  exists e' w',
    sendTextPrompt Sample.runtime rev_4o
      [Sample.turn "user" "what is this?" (Some [Sample.missing])]
      (Sample.context_with (Some Sample.good_key) low) Sample.world0
    = (Thrown e', w') /\
    local_step Sample.world0 w'.
Proof.
  apply (sendTextPrompt_unreadable_attachment Sample.runtime rev_4o
           [Sample.turn "user" "what is this?" (Some [Sample.missing])]
           (Sample.context_with (Some Sample.good_key) low)
           (Sample.settings_with (Some Sample.good_key) low)
           Sample.world0
           (Sample.turn "user" "what is this?" (Some [Sample.missing]))
           [Sample.missing] Sample.missing "ENOENT" (sample_accepted low)).
  - left. reflexivity.
  - reflexivity.
  - discriminate.
  - discriminate.
  - left. reflexivity.
  - reflexivity.
Defined.

(** ** The development server's stream *)

Lemma sendAndSleep_done (counter : Z) :
  (10 < counter)%Z -> DevServer.sendAndSleep counter = [DevServer.end_response].
Proof.
  intros H. rewrite DevServer.sendAndSleep_equation.
  replace (counter >? 10)%Z with true; [reflexivity|].
  symmetry. rewrite Z.gtb_ltb. apply Z.ltb_lt. exact H.
Qed.

Lemma sendAndSleep_round (counter : Z) :
  (counter <= 10)%Z ->
  DevServer.sendAndSleep counter
  = DevServer.write (DevServer.chunk counter)
    :: DevServer.sendAndSleep (counter + 1).
Proof.
  intros H. rewrite DevServer.sendAndSleep_equation.
  replace (counter >? 10)%Z with false; [reflexivity|].
  symmetry. rewrite Z.gtb_ltb. apply Z.ltb_ge. exact H.
Qed.

(** X23: [sendAndSleep] always ends the response, and exactly once, at the end.
    Started at an integer [counter] it first writes one chunk " ;i=k" for
    each k from [counter] to 10, in order: 11 - counter chunks, none when
    the counter is already above 10. *)
Theorem sendAndSleep_writes (counter : Z) :
  DevServer.sendAndSleep counter
  = map (fun k => DevServer.write (DevServer.chunk (counter + Z.of_nat k)))
        (seq 0 (Z.to_nat (11 - counter)))
    ++ [DevServer.end_response].
Proof.
  remember (Z.to_nat (11 - counter)) as rounds eqn:Hrounds.
  revert counter Hrounds. induction rounds as [|rounds IH]; intros counter Hrounds.
  - apply sendAndSleep_done. lia.
  - rewrite sendAndSleep_round by lia.
    rewrite (IH (counter + 1)%Z) by lia.
    cbn [seq map app]. rewrite Z.add_0_r. f_equal. f_equal.
    rewrite <- seq_shift, map_map. apply map_ext. intros k.
    do 2 f_equal. lia.
Qed.

(** What a client of [GET /stream] receives. *)
Lemma stream_body :
  DevServer.body DevServer.stream
  = "Thinking... ;i=1 ;i=2 ;i=3 ;i=4 ;i=5 ;i=6 ;i=7 ;i=8 ;i=9 ;i=10".
Proof. reflexivity. Qed.

(** ** More on the cache, the model choice and the files read *)

(** X8: The cache holds one client.  With two different keys used in turn, each
    call builds a client: going back to the first key does not find its
    client again. *)
Theorem getClient_rotation (s1 s2 : ISettings) (key1 key2 : string) (w : World) :
  apiKey s1 = Some key1 -> apiKey s2 = Some key2 -> key1 <> key2 ->
  let w1 := snd (getClient (Some s1) w) in
  let w2 := snd (getClient (Some s2) w1) in
  let w3 := snd (getClient (Some s1) w2) in
  events w3 = events w1 ++ [NewOpenAI (Some key2); NewOpenAI (Some key1)].
Proof.
  intros H1 H2 Hne w1 w2 w3.
  destruct (getClient_returns s1 w) as [c1 [w1' [Hrun1 [Hopen1 _]]]].
  assert (Hw1 : w1 = w1') by (unfold w1; now rewrite Hrun1).
  assert (Hcur1 : currentKey (service w1) = Some key1).
  { unfold w1, getClient, defined. cbn [bind ret]. rewrite H1.
    destruct (openAI (service w)) as [c|]; [|reflexivity].
    destruct (option_string_eqb (currentKey (service w)) (Some key1)) eqn:He;
      cbn [negb snd]; [|reflexivity].
    now apply option_string_eqb_spec. }
  assert (Hopen1' : openAI (service w1) = Some c1) by now rewrite Hw1.
  assert (Hrun2 : getClient (Some s2) w1
                  = new_client (Some key2) w1).
  { unfold getClient, defined. cbn [bind ret]. rewrite Hopen1', Hcur1, H2.
    cbn [option_string_eqb]. rewrite (string_eqb_false _ _ Hne). reflexivity. }
  assert (Hrun3 : getClient (Some s1) w2 = new_client (Some key1) w2).
  { unfold w2. rewrite Hrun2. unfold getClient, defined. cbn [bind ret].
    cbn [new_client snd service openAI currentKey]. rewrite H1.
    cbn [option_string_eqb].
    rewrite (string_eqb_false key2 key1) by congruence. reflexivity. }
  unfold w3. rewrite Hrun3. unfold w2. rewrite Hrun2.
  cbn [new_client snd events]. rewrite <- app_assoc. reflexivity.
Qed.

Lemma getClient_rotation_witness :
  let s1 := Sample.settings_with (Some Sample.good_key) low in
  let s2 := Sample.settings_with (Some "sk-another-key-0000") low in
  events (snd (getClient (Some s1)
                 (snd (getClient (Some s2)
                         (snd (getClient (Some s1) Sample.world0))))))
  = [ NewOpenAI (Some Sample.good_key);
      NewOpenAI (Some "sk-another-key-0000");
      NewOpenAI (Some Sample.good_key) ].
Proof.
  intros s1 s2.
  rewrite (getClient_rotation s1 s2 Sample.good_key "sk-another-key-0000"
             Sample.world0 eq_refl eq_refl ltac:(discriminate)).
  reflexivity.
Defined.

(** X19: An image attached to a "brain" turn counts for the choice of the model
    but is not sent: when the only windowed turns with an image attachment
    have role "brain", the request goes to the vision model and every
    message in it is plain text. *)
Theorem sendTextPrompt_brain_image_selects_vision {V : Type} (rt : Runtime V)
    (rev : Revision) (prompts : list TextBrainPrompt)
    (context : IBrainPromptContext) (s : ISettings) (w : World) :
  accepted rt context s ->
  let turns :=
    truncateStringList prompts
      match maxCharactersHistorySize s with Some k => k | None => 3000%Z end in
  Forall (fun m => image_attachments m = [] \/ role m = "brain") turns ->
  (exists m, In m turns /\ image_attachments m <> []) ->
  exists params,
    chat_requests (events (snd (sendTextPrompt rt rev prompts context w)))
    = chat_requests (events w) ++ [params] /\
    model params = Js.Str (vision_model rev) /\
    messages params = map plain_message turns.
Proof.
  intros Hacc turns Hplain Himage.
  destruct (sendTextPrompt_plain_run rt rev prompts context s w Hacc Hplain)
    as [client [w1 [Hclient Hrun]]].
  fold turns in Hrun. apply hasImageAttached_some in Himage.
  rewrite Himage in Hrun.
  exists {| model := Js.Str (vision_model rev);
            messages := map plain_message turns;
            max_tokens :=
              match maxCharactersHistorySize s with
              | Some k => k
              | None => 3000%Z
              end |}.
  split; [|split; reflexivity].
  rewrite Hrun. cbn [snd logged events].
  destruct (getClient_returns s w) as [c [w' [Hc [_ Hev]]]].
  assert (w' = w1) by congruence. subst w'.
  rewrite chat_requests_app.
  destruct Hev as [-> | ->]; [reflexivity|].
  rewrite chat_requests_app. cbn [chat_requests flat_map app].
  rewrite app_nil_r. reflexivity.
Qed.

(** The assistant's earlier answer carries an image; the user asks again in
    plain text: the request is for the vision model and holds no image. *)
Lemma sendTextPrompt_brain_image_selects_vision_witness :
  exists params,
    chat_requests
      (events (snd (sendTextPrompt Sample.runtime rev_preview
                      [ Sample.turn "brain" "here it is" (Some [Sample.cat]);
                        Sample.turn "user" "thanks" None ]
                      (Sample.context_with (Some Sample.good_key) high)
                      Sample.world0)))
    = [params] /\
    model params = Js.Str "gpt-4-vision-preview" /\
    messages params
    = [ {| chat_role := "assistant"; content := content_string "here it is" |};
        {| chat_role := "user"; content := content_string "thanks" |} ].
Proof.
  apply (sendTextPrompt_brain_image_selects_vision Sample.runtime rev_preview
           [ Sample.turn "brain" "here it is" (Some [Sample.cat]);
             Sample.turn "user" "thanks" None ]
           (Sample.context_with (Some Sample.good_key) high)
           (Sample.settings_with (Some Sample.good_key) high)
           Sample.world0 (sample_accepted high)).
  - constructor; [right; reflexivity|].
    constructor; [left; reflexivity | constructor].
  - eexists. split; [left; reflexivity | discriminate].
Defined.

Lemma reads_within_refl (turns : list TextBrainPrompt) (w : World) :
  reads_within turns w w.
Proof. exists []. split; [now rewrite app_nil_r | intros p []]. Qed.

Lemma reads_within_emit (turns : list TextBrainPrompt) (w0 w : World) (e : Event) :
  (forall p, e = ReadFileSync p -> inlined_path turns p) ->
  reads_within turns w0 w ->
  reads_within turns w0 (logged w e).
Proof.
  intros He [l [Hl Hall]]. exists (l ++ [e]). cbn [logged events].
  split; [now rewrite Hl, app_assoc|].
  intros p Hin. apply in_app_or in Hin. destruct Hin as [Hin | [Hin | []]].
  - exact (Hall p Hin).
  - exact (He p Hin).
Qed.

Lemma reads_within_other (turns : list TextBrainPrompt) (w0 : World) :
  stable (reads_within turns w0) (fun e => forall p, e <> ReadFileSync p).
Proof.
  intros w e He Hw. apply (reads_within_emit turns w0 w e); [|exact Hw].
  intros p Hp. destruct (He p Hp).
Qed.

Lemma reads_within_getMessageContent {V : Type} (rt : Runtime V)
    (turns : list TextBrainPrompt) (w0 : World)
    (ctx_settings : option ISettings) (lastPrompt : option TextBrainPrompt)
    (m : TextBrainPrompt) :
  In m turns ->
  keeps (reads_within turns w0) (getMessageContent rt ctx_settings lastPrompt m).
Proof.
  intros Hin. unfold getMessageContent.
  destruct (negb (truthy_count (image_count m)) || (role m =? "brain")) eqn:Hc;
    [auto with keeps|].
  apply orb_false_iff in Hc. destruct Hc as [Himg Hrole].
  apply negb_false_iff, truthy_count_images in Himg.
  apply String.eqb_neq in Hrole.
  apply hoare_bind
    with (Q := fun atts w => reads_within turns w0 w /\ attachments m = Some atts).
  { apply hoare_defined; auto. }
  intros atts.
  apply hoare_bind with (Q := fun _ => reads_within turns w0);
    [|intros parts; apply hoare_ret; auto].
  intros w [Hw Hatts]. revert w Hw.
  apply (hoare_mapM (reads_within turns w0)). intros a Ha.
  unfold imagePart. apply keeps_bind.
  - unfold convertImageAttachmentToBase64.
    apply keeps_bind; [|auto with keeps].
    apply hoare_emit. intros w Hw.
    apply (reads_within_emit turns w0 w _); [|exact Hw].
    intros p Hp. injection Hp as <-.
    exists m, atts, a. repeat split; assumption.
  - intros u. apply keeps_bind; [auto with keeps|]. intros last.
    apply keeps_bind; [|auto with keeps].
    destruct (message m =? message last); auto with keeps.
Qed.

(** X22: The only files a text call reads are attachments of turns that are
    inside the window and are sent with their images.  The attachments of
    turns that the window dropped, of "brain" turns and of turns without an
    image are never read, whatever the settings and the outcome. *)
Theorem sendTextPrompt_reads_inlined_only {V : Type} (rt : Runtime V)
    (rev : Revision) (prompts : list TextBrainPrompt)
    (context : IBrainPromptContext) (w : World) :
  reads_within
    (truncateStringList prompts (historyBudget (settings context)))
    w (snd (sendTextPrompt rt rev prompts context w)).
Proof.
  set (turns := truncateStringList prompts (historyBudget (settings context))).
  assert (Hkeeps : keeps (reads_within turns w)
                     (sendTextPrompt rt rev prompts context)).
  { unfold sendTextPrompt. fold turns.
    destruct (negb (success rt (validateSettings rt rev (settings context))));
      [auto with keeps|].
    apply keeps_bind.
    { unfold textModel_of. destruct (0 <? _)%nat; auto with keeps. }
    intros chosen. apply keeps_bind.
    { apply hoare_mapM. intros m Hm. unfold chatMessage.
      apply keeps_bind; [|auto with keeps].
      apply reads_within_getMessageContent. exact Hm. }
    intros msgs. apply keeps_bind.
    { intros w' Hw'. destruct (settings context) as [s|]; [|exact Hw'].
      destruct (getClient_returns s w') as [client [w1 [Hrun [_ Hev]]]].
      rewrite Hrun. destruct Hw' as [l [Hl Hall]].
      destruct Hev as [Hev | Hev].
      - exists l. split; [now rewrite Hev | assumption].
      - exists (l ++ [NewOpenAI (apiKey s)]).
        split; [now rewrite Hev, Hl, app_assoc|].
        intros p Hp. apply in_app_or in Hp.
        destruct Hp as [Hp | [Hp | []]]; [exact (Hall p Hp) | discriminate Hp]. }
    intros client. apply keeps_bind; [|auto 10 with keeps].
    apply (keeps_emit _ _ _ (reads_within_other turns w)).
    intros p. discriminate. }
  specialize (Hkeeps w (reads_within_refl turns w)).
  destruct (sendTextPrompt rt rev prompts context w) as [[r|e] w']; exact Hkeeps.
Qed.

(** X16: An accepted 'binary' call whose fetches all succeed: after the request,
    each returned URL is fetched once, in the provider's order, and the
    attachments carry the fetched bytes in that order. *)
Theorem generateImage_binary_fetches {V : Type} (rt : Runtime V)
    (rev : Revision) (prompts : list ImageGenerationBrainPrompt)
    (prompt : ImageGenerationBrainPrompt)
    (context : IBrainPromptContext) (s : ISettings) (w : World) :
  Js.last_item prompts = Some prompt ->
  accepted rt context s ->
  expectedResponseType prompt = "binary" ->
  let params := imageGenerateParams rt rev prompt s (senderId context) "url" in
  exists client w1,
    getClient (Some s) w = (Returned client, w1) /\
    forall images buffers,
      images_generate rt client params = Returned images ->
      Forall2 (fun d b => fetch_buffer rt (url d) = Returned b)
              (data images) buffers ->
      generateImage rt rev prompts context w
      = (Returned
           {| result := "";
              response_attachments :=
                Some (map (fun b => png (file_buffer b)) buffers);
              validationResult := new_BrainSettingsValidationResult rt |},
         {| service := service w1;
            events := events w1 ++ [ImagesGenerate client params]
                      ++ map (fun d => Fetch (url d)) (data images) |}).
Proof.
  intros Hlast Hacc Hbin params.
  destruct (generateImage_accepted rt rev prompts prompt context s w Hlast Hacc)
    as [client [w1 [Hclient Hrun]]].
  cbv zeta in Hrun. rewrite Hbin in Hrun.
  cbn [String.eqb Ascii.eqb Bool.eqb] in Hrun. cbv iota in Hrun.
  fold params in Hrun.
  exists client, w1. split; [exact Hclient|].
  intros images buffers Himages Hfetch.
  rewrite Hrun, (bind_lift_returned _ _ _ _ Himages).
  assert (Hurls : Forall2 (fun u b => fetch_buffer rt u = Returned b)
                    (map (fun d => url d) (data images)) buffers).
  { clear -Hfetch. induction Hfetch; constructor; assumption. }
  rewrite (bind_returned _ _ _ _ _
             (mapM_imageAttachment_binary rt prompt _ _ _ Hbin Hurls)).
  unfold ret, logged. cbn [service events].
  rewrite <- app_assoc, map_map. reflexivity.
Qed.

Lemma generateImage_binary_fetches_witness :
  snd (generateImage Sample.runtime rev_preview [Sample.image_prompt "binary"]
         (Sample.context_with (Some Sample.good_key) low) Sample.world0)
  = {| service :=
         {| openAI := Some {| client_apiKey := Some Sample.good_key;
                              client_serial := 0 |};
            currentKey := Some Sample.good_key |};
       events :=
         [ NewOpenAI (Some Sample.good_key);
           ImagesGenerate
             {| client_apiKey := Some Sample.good_key; client_serial := 0 |}
             {| image_model := None;
                prompt := "a red bicycle";
                n := Js.Int 2;
                size := "512x512";
                user := Some "user-1";
                response_format := "url" |};
           Fetch (Some Sample.generated_url) ] |}.
Proof.
  destruct (generateImage_binary_fetches Sample.runtime rev_preview
              [Sample.image_prompt "binary"] (Sample.image_prompt "binary")
              (Sample.context_with (Some Sample.good_key) low)
              (Sample.settings_with (Some Sample.good_key) low)
              Sample.world0 eq_refl (sample_accepted low) eq_refl)
    as [client [w1 [Hclient Hrun]]].
  rewrite (Hrun {| data := [ {| url := Some Sample.generated_url;
                                b64_json := None |} ] |}
             [Sample.png_bytes] eq_refl
             ltac:(constructor; [reflexivity | constructor])).
  vm_compute in Hclient. injection Hclient as <- <-. reflexivity.
Defined.

(* ================================================================== *)
(** * The model of the chat request *)

Lemma last_item_nonempty {A : Type} (xs : list A) :
  xs <> [] -> exists x, Js.last_item xs = Some x.
Proof.
  intros Hne. destruct (exists_last Hne) as [front [x ->]].
  exists x. apply last_item_snoc.
Qed.

Lemma mapM_imagePart_returns {V : Type} (rt : Runtime V) (s : ISettings)
    (lastTurn m : TextBrainPrompt) (atts : list FileAttachment) (w : World) :
  (forall a, In a atts -> exists bytes, readFileSync rt (path a) = Returned bytes) ->
  exists parts w',
    mapM (imagePart rt (Some s) (Some lastTurn) m) atts w = (Returned parts, w').
Proof.
  revert w. induction atts as [|a atts IH]; intros w Hread.
  - eexists _, _. reflexivity.
  - destruct (Hread a (or_introl eq_refl)) as [bytes Ha].
    cbn [mapM].
    rewrite (bind_returned _ _ _ _ _ (imagePart_readable rt s lastTurn m a bytes w Ha)).
    destruct (IH (logged w (ReadFileSync (path a)))
                (fun a' Hin => Hread a' (or_intror Hin))) as [parts [w' Hrest]].
    unfold logged in Hrest. rewrite (bind_returned _ _ _ _ _ Hrest).
    eexists _, _. reflexivity.
Qed.

Lemma chatMessage_returns {V : Type} (rt : Runtime V) (s : ISettings)
    (lastTurn m : TextBrainPrompt) (w : World) :
  (forall atts a, attachments m = Some atts -> In a atts ->
     exists bytes, readFileSync rt (path a) = Returned bytes) ->
  exists msg w',
    chatMessage rt (Some s) (Some lastTurn) m w = (Returned msg, w').
Proof.
  intros Hread. unfold chatMessage, getMessageContent.
  destruct (negb (truthy_count (image_count m)) || (role m =? "brain")) eqn:Hc.
  - eexists _, _. reflexivity.
  - apply orb_false_iff in Hc. destruct Hc as [Himg _].
    apply negb_false_iff, truthy_count_images in Himg.
    destruct (attachments m) as [atts|] eqn:Hatts.
    2:{ unfold image_attachments in Himg. rewrite Hatts in Himg. congruence. }
    cbn [defined]. run.
    destruct (mapM_imagePart_returns rt s lastTurn m atts w
                (fun a Hin => Hread atts a eq_refl Hin)) as [parts [w' Hparts]].
    rewrite (bind_returned _ _ _ _ _ Hparts). eexists _, _. reflexivity.
Qed.

(** With readable files the messages of a history can be composed. *)
Lemma mapM_chatMessage_returns {V : Type} (rt : Runtime V) (s : ISettings)
    (lastTurn : TextBrainPrompt) (turns : list TextBrainPrompt) (w : World) :
  readable_attachments rt turns ->
  exists msgs w',
    mapM (chatMessage rt (Some s) (Some lastTurn)) turns w = (Returned msgs, w').
Proof.
  revert w. induction turns as [|m turns IH]; intros w Hread.
  - eexists _, _. reflexivity.
  - destruct (chatMessage_returns rt s lastTurn m w
                (fun atts a Hatts Hin => Hread m atts a (or_introl eq_refl) Hatts Hin))
      as [msg [w1 Hmsg]].
    cbn [mapM]. rewrite (bind_returned _ _ _ _ _ Hmsg).
    destruct (IH w1 (fun m' atts a Hin => Hread m' atts a (or_intror Hin)))
      as [msgs [w2 Hrest]].
    rewrite (bind_returned _ _ _ _ _ Hrest). eexists _, _. reflexivity.
Qed.

(** C3 (as amended): a [sendTextPrompt] call that passes the settings check
    windows the history with [truncateStringList] and then sends its chat
    request as follows.  When some turn of the windowed list has an
    attachment whose mimeType starts with "image/", every chat request the
    call sends carries the vision-capable model, whatever the configured
    label, and one request is sent when the attached files can be read.
    Otherwise the call sends one chat request, whose model is what the fixed
    label-to-id table holds for the configured label: the id for a label of
    the table; for any other label no model id, namely [undefined], unless
    the label names a member that every object inherits from
    [Object.prototype], in which case it is that member; and [undefined] for
    an absent label. *)
Theorem sendTextPrompt_model_selection {V : Type} (rt : Runtime V)
    (rev : Revision) (prompts : list TextBrainPrompt)
    (context : IBrainPromptContext) (s : ISettings) (w : World) :
  settings context = Some s ->
  success rt (validateSettings rt rev (settings context)) = true ->
  let turns := truncateStringList prompts (historyBudget (settings context)) in
  let sent :=
    chat_requests (events (snd (sendTextPrompt rt rev prompts context w))) in
  ((exists m, In m turns /\ image_attachments m <> []) ->
     exists new,
       sent = chat_requests (events w) ++ new /\
       Forall (fun params => model params = Js.Str (vision_model rev)) new /\
       (readable_attachments rt turns -> length new = 1%nat)) /\
  ((forall m, In m turns -> image_attachments m = []) ->
     exists params,
       sent = chat_requests (events w) ++ [params] /\
       model params = Js.get (textModels rev) (textModel s)) /\
  (forall label id,
     Js.own (textModels rev) label = Some id ->
     Js.get (textModels rev) (Some label) = Js.Str id) /\
  (forall label,
     Js.own (textModels rev) label = None ->
     Js.get (textModels rev) (Some label)
     = (if Js.mem label Js.Object_prototype_keys
        then Js.Inherited label
        else Js.Undefined)) /\
  Js.get (textModels rev) None = Js.Undefined.
Proof.
  intros Hs Hok turns sent.
  pose proof (sendTextPrompt_request rt rev prompts context s w Hs Hok) as Hreq.
  cbv zeta in Hreq. fold sent in Hreq.
  assert (Hturns : truncateStringList prompts (historyBudget (Some s)) = turns)
    by (unfold turns; now rewrite Hs).
  rewrite Hturns in Hreq.
  split; [|split; [|split; [|split]]].
  - intros Himage. pose proof Himage as [m [Hin _]].
    apply hasImageAttached_some in Himage. rewrite Himage in Hreq.
    destruct (mapM (chatMessage rt (Some s) (Js.last_item turns)) turns w)
      as [[msgs|e] w1] eqn:Hmsgs; cbn [fst] in Hreq.
    + eexists. split; [exact Hreq|]. split; [|reflexivity].
      constructor; [reflexivity | constructor].
    + exists []. rewrite app_nil_r. split; [exact Hreq|]. split; [constructor|].
      intros Hread. exfalso.
      destruct (last_item_nonempty turns) as [lastTurn Hlast].
      { intros Hnil. rewrite Hnil in Hin. destruct Hin. }
      rewrite Hlast in Hmsgs.
      destruct (mapM_chatMessage_returns rt s lastTurn turns w Hread)
        as [msgs [w2 Hret]].
      congruence.
  - intros Hnone. rewrite (hasImageAttached_none turns Hnone) in Hreq.
    assert (Hplain : Forall (fun m => image_attachments m = [] \/ role m = "brain")
                       turns).
    { apply Forall_forall. intros m Hin. left. exact (Hnone m Hin). }
    rewrite (mapM_chatMessage_plain rt (Some s) (Js.last_item turns) turns w Hplain)
      in Hreq.
    cbn [fst] in Hreq. eexists. split; [exact Hreq | reflexivity].
  - intros label id Hown. unfold Js.get. rewrite Hown. reflexivity.
  - intros label Hown. unfold Js.get. rewrite Hown. reflexivity.
  - destruct rev; reflexivity.
Qed.

(** With "GPT 4" configured.  A history whose only image is on a turn that
    the window drops is sent to the model of the label; a history with images
    inside the window is sent to the vision model. *)
Lemma sendTextPrompt_model_selection_witness :
  let context := Sample.context_with (Some Sample.good_key) high in
  (exists params,
     chat_requests
       (events (snd (sendTextPrompt Sample.runtime rev_preview
                       Sample.old_image_history context Sample.world0)))
     = [params] /\
     model params = Js.Str "gpt-4-1106-preview") /\
  (exists new,
     chat_requests
       (events (snd (sendTextPrompt Sample.runtime rev_preview
                       Sample.repeated_question context Sample.world0)))
     = new /\
     Forall (fun params => model params = Js.Str "gpt-4-vision-preview") new /\
     length new = 1%nat).
Proof.
  intros context. split.
  - destruct (sendTextPrompt_model_selection Sample.runtime rev_preview
                Sample.old_image_history context
                (Sample.settings_with (Some Sample.good_key) high)
                Sample.world0 eq_refl eq_refl) as [_ [Hlabel _]].
    apply Hlabel. intros m Hin.
    change (In m (skipn 2 Sample.old_image_history)) in Hin. simpl in Hin.
    repeat destruct Hin as [<- | Hin]; try reflexivity. contradiction.
  - destruct (sendTextPrompt_model_selection Sample.runtime rev_preview
                Sample.repeated_question context
                (Sample.settings_with (Some Sample.good_key) high)
                Sample.world0 eq_refl eq_refl) as [Hvision _].
    destruct Hvision as [new [Hsent [Hall Hone]]].
    + exists (Sample.turn "user" "what is this?" (Some [Sample.cat])).
      split; [left; reflexivity | discriminate].
    + exists new. split; [exact Hsent|]. split; [exact Hall|].
      apply Hone. intros m atts a Hin Hatts Ha.
      change (In m Sample.repeated_question) in Hin. simpl in Hin.
      destruct Hin as [<- | [<- | []]]; injection Hatts as <-;
        destruct Ha as [<- | []]; eexists; reflexivity.
Defined.

(** C3 as first stated fails on the label "constructor": it is no key of
    the label-to-id table, yet the model of the request is not [undefined]
    but the member of that name that the table object inherits. *)
Lemma sendTextPrompt_inherited_label_counterexample :
  Js.own (textModels rev_preview) "constructor" = None /\
  exists params,
    chat_requests
      (events (snd (sendTextPrompt Sample.runtime rev_preview
                      [Sample.turn "user" "hello" None]
                      (Sample.context_labelled (Some "constructor"))
                      Sample.world0)))
    = [params] /\
    model params = Js.Inherited "constructor" /\
    model params <> Js.Undefined.
Proof.
  split; [reflexivity|]. eexists. split; [vm_compute; reflexivity|].
  split; [reflexivity | discriminate].
Qed.
